(** * 보여dream: the nightmare-to-image pipeline

    A shallow embedding of the Streamlit application [app.py] and of the
    services it drives ([services/stt_service.py],
    [services/moderation_service.py], [services/report_generator_service.py],
    [services/dream_analyzer_service.py],
    [services/image_generator_service.py]), and of the index builder
    [core/indexing_service.py].

    Python values are modelled as follows.
    - [str] is [string] (the bytes of the UTF-8 text), [bytes] is
      [list byte], [float] is the primitive binary64 [float].
    - a call that may raise is a [PyResult]; [except Exception] handlers are
      matches on it.
    - a pydantic model is a record, and so is the dictionary its [.dict()]
      produces (a second record type, since the application reads it with
      [.get]).
    - the hosted providers (Whisper, the moderation endpoint, the chat model,
      the FAISS retriever, the image endpoint) are functions supplied with
      every script run: the theorems quantify over all of them.
    - [st.session_state] is a record with one field per key of
      [session_defaults]; the scratch directory is a finite map from paths to
      file contents. *)

From Stdlib Require Import Ascii PrimFloat SpecFloat FloatOps.
From stdpp Require Import base strings gmap list.
From stdpp Require Import pretty.

Open Scope string_scope.

(** ** Python results and exceptions *)

Inductive ExnClass :=
  | FileNotFoundError
  | OSError
  | AuthenticationError
  | RateLimitError
  | APIConnectionError
  | ValueError
  | KeyError
  | OverflowError
  | IndexError
  | OutputParserException
  | StreamlitAPIException
  | RuntimeError.

(** An exception instance: its class and [str(e)]. *)
Record Exn := mkExn { exn_class : ExnClass; exn_str : string }.

Inductive PyResult (A : Type) :=
  | Ret (a : A)
  | Raise (e : Exn).
Arguments Ret {A} a.
Arguments Raise {A} e.

Global Instance pyresult_ret : MRet PyResult := λ _ a, Ret a.
Global Instance pyresult_bind : MBind PyResult := λ _ _ f r,
  match r with
  | Ret a => f a
  | Raise e => Raise e
  end.

Abbreviation bytes := (list Byte.byte).

(** Truthiness of [str] and [bytes]: non-empty. *)
Definition truthy_str (s : string) : bool :=
  match s with
  | EmptyString => false
  | String _ _ => true
  end.

Definition is_Some_b {A : Type} (o : option A) : bool :=
  match o with
  | Some _ => true
  | None => false
  end.

Definition truthy_bytes (b : bytes) : bool :=
  match b with
  | [] => false
  | _ :: _ => true
  end.

Definition newline : string := String "010"%char EmptyString.

(** ** services/stt_service.py *)

Module stt_service.

(** The [except] clauses of [transcribe_audio], in their order: the text
    returned in place of the transcript. *)
Definition failure_text (e : Exn) : string :=
  match exn_class e with
  | FileNotFoundError => "오디오 파일을 찾을 수 없습니다."
  | AuthenticationError =>
      "오류: OpenAI API 키가 잘못되었거나 유효하지 않습니다. 환경변수를 확인해주세요."
  | RateLimitError =>
      "오류: API 사용량 한도를 초과했습니다. 잠시 후 다시 시도하거나 플랜을 확인해주세요."
  | APIConnectionError =>
      "오류: OpenAI 서버에 연결할 수 없습니다. 인터넷 연결을 확인해주세요."
  | _ => "음성 변환 중 알 수 없는 오류가 발생했습니다: " ++ exn_str e
  end.

(** The [try] body: [open(audio_path, "rb")] raises [FileNotFoundError]
    when the path is absent; otherwise the file is sent to the
    transcription endpoint. *)
Definition attempt (transcriptions_create : bytes → PyResult string)
    (fs : gmap string bytes) (audio_path : string) : PyResult string :=
  match fs !! audio_path with
  | None => Raise (mkExn FileNotFoundError audio_path)
  | Some audio_file => transcriptions_create audio_file
  end.

Definition transcribe_audio
    (transcriptions_create : bytes → PyResult string)
    (fs : gmap string bytes) (audio_path : string) : string :=
  match attempt transcriptions_create fs audio_path with
  | Ret text => text
  | Raise e => failure_text e
  end.

(** The [except] clauses of [transcribe_from_bytes]: there is no file to
    miss, and the last message differs from that of [transcribe_audio]. *)
Definition bytes_failure_text (e : Exn) : string :=
  match exn_class e with
  | AuthenticationError =>
      "오류: OpenAI API 키가 잘못되었거나 유효하지 않습니다. 환경변수를 확인해주세요."
  | RateLimitError =>
      "오류: API 사용량 한도를 초과했습니다. 잠시 후 다시 시도하거나 플랜을 확인해주세요."
  | APIConnectionError =>
      "오류: OpenAI 서버에 연결할 수 없습니다. 인터넷 연결을 확인해주세요."
  | _ =>
      "오류: 바이트 데이터 음성 변환 중 알 수 없는 오류가 발생했습니다: "
        ++ exn_str e
  end.

(** [transcribe_from_bytes]: the bytes are wrapped in a [BytesIO] that
    carries [file_name] and sent to the same endpoint. *)
Definition transcribe_from_bytes
    (transcriptions_create : bytes → PyResult string)
    (audio_bytes : bytes) (file_name : string) : string :=
  match transcriptions_create audio_bytes with
  | Ret text => text
  | Raise e => bytes_failure_text e
  end.

(** Which [except] clause of [transcribe_audio] handles an exception. *)
Inductive Handler :=
  | NotFound | AuthInvalid | RateLimited | ConnectionFailed | Unknown.

Definition handler_of (e : Exn) : Handler :=
  match exn_class e with
  | FileNotFoundError => NotFound
  | AuthenticationError => AuthInvalid
  | RateLimitError => RateLimited
  | APIConnectionError => ConnectionFailed
  | _ => Unknown
  end.

End stt_service.

(** ** services/moderation_service.py *)

Module moderation_service.

(** One entry of [response.results]: the verdict and
    [categories.model_dump().items()]. *)
Record ModerationResult := mkModerationResult {
  flagged : bool;
  categories : list (string * bool)
}.

Inductive SafetyDetails :=
  | ModelDump (r : ModerationResult)
  | ErrorDetails (error : string).

(** The dictionary [check_text_safety] returns: keys ["flagged"], ["text"],
    ["details"]. *)
Record SafetyResult := mkSafetyResult {
  sr_flagged : bool;
  sr_text : string;
  sr_details : SafetyDetails
}.

Definition flagged_categories (r : ModerationResult) : list string :=
  map fst (filter (λ cf, snd cf = true) (categories r)).

(** [response.results[0]] *)
Definition first_result (results : list ModerationResult)
    : PyResult ModerationResult :=
  match results with
  | [] => Raise (mkExn IndexError "list index out of range")
  | r :: _ => Ret r
  end.

Definition check_text_safety
    (moderations_create : string → PyResult (list ModerationResult))
    (text : string) : SafetyResult :=
  match moderations_create text ≫= first_result with
  | Ret moderation_result =>
      if flagged moderation_result then
        mkSafetyResult true
          ("입력된 내용이 안전 정책을 위반할 수 있습니다: "
             ++ String.concat ", " (flagged_categories moderation_result))
          (ModelDump moderation_result)
      else
        mkSafetyResult false "안전합니다." (ModelDump moderation_result)
  | Raise e =>
      mkSafetyResult true
        ("안전성 검사 중 오류가 발생했습니다: " ++ exn_str e)
        (ErrorDetails (exn_str e))
  end.

End moderation_service.

(** ** services/report_generator_service.py *)

Module report_generator_service.

(** The pydantic models [Emotion] and [Report]: field types only, the
    [Field(description=...)] texts are part of the format instructions sent
    to the model and constrain nothing. *)
Record Emotion := mkEmotion { emotion : string; score : float }.

Record Report := mkReport {
  emotions : list Emotion;
  keywords : list string;
  analysis_summary : string
}.

(** The dictionaries produced by [.dict()]. *)
Record EmotionDict := mkEmotionDict { ed_emotion : string; ed_score : float }.

Record ReportDict := mkReportDict {
  rd_emotions : list EmotionDict;
  rd_keywords : list string;
  rd_analysis_summary : string
}.

Definition Emotion_dict (e : Emotion) : EmotionDict :=
  mkEmotionDict (emotion e) (score e).

Definition Report_dict (r : Report) : ReportDict :=
  mkReportDict (map Emotion_dict (emotions r)) (keywords r)
    (analysis_summary r).

(** A retrieved passage. *)
Record Document := mkDocument { page_content : string }.

(** The collaborators of one [ReportGeneratorService]: [self.retriever]
    (absent when the service was built without one), the chat model applied
    to the filled template (its context and dream text), and
    [PydanticOutputParser(pydantic_object=Report)]. *)
Record Collaborators := mkCollaborators {
  retriever : option (string → PyResult (list Document));
  llm : string → string → PyResult string;
  parser : string → PyResult Report
}.

Definition _format_docs (docs : list Document) : string :=
  String.concat (newline ++ newline) (map page_content docs).

(** [chain.invoke(dream_text)] for
    [{"context": retriever | _format_docs, "dream_text": passthrough}
     | prompt | llm | parser]. *)
Definition chain_invoke (c : Collaborators)
    (retrieve : string → PyResult (list Document)) (dream_text : string)
    : PyResult Report :=
  docs ← retrieve dream_text;
  raw ← llm c (_format_docs docs) dream_text;
  parser c raw.

(** The report returned when the chain raised. *)
Definition error_report (e : Exn) : ReportDict :=
  mkReportDict [] []
    ("RAG 리포트 생성 중 오류가 발생했습니다: " ++ exn_str e).

Definition generate_report_with_rag (c : Collaborators)
    (dream_text : string) : PyResult ReportDict :=
  match retriever c with
  | None =>
      Raise (mkExn ValueError
               "RAG 리포트를 생성하려면 retriever 객체가 필요합니다.")
  | Some retrieve =>
      match chain_invoke c retrieve dream_text with
      | Ret report_object => Ret (Report_dict report_object)
      | Raise e => Ret (error_report e)
      end
  end.

End report_generator_service.

(** ** services/dream_analyzer_service.py *)

Module dream_analyzer_service.

Import report_generator_service.

Record KeywordMapping := mkKeywordMapping {
  original : string;
  transformed : string
}.

Record ReconstructionOutput := mkReconstructionOutput {
  reconstructed_prompt : string;
  transformation_summary : string;
  keyword_mappings : list KeywordMapping
}.

Record MappingDict := mkMappingDict {
  md_original : string;
  md_transformed : string
}.

Definition KeywordMapping_dict (m : KeywordMapping) : MappingDict :=
  mkMappingDict (original m) (transformed m).

(** What [chain.invoke] receives. [emotions_info] is the ["; "]-joined text
    [label: int(score*100)%] of the entries of [request_emotions]; only the
    chat model reads it, so the entries are passed as they are. *)
Record Request := mkRequest {
  request_dream_text : string;
  request_keywords_info : string;
  request_emotions : list EmotionDict
}.

(** The language chain. [template_fields] is what [ChatPromptTemplate] does
    with a system text that holds a brace, formatted with the variables of
    [chain.invoke]: the library reads the text as a template in f-string
    format, so it substitutes the fields that name a variable and raises on a
    field that names none ([KeyError]) and on a lone brace ([ValueError]).
    [nightmare_llm] is the chat model followed by [StrOutputParser], on the
    formatted system message (the human message is a constant). *)
Record Collaborators := mkCollaborators {
  template_fields : string → Request → PyResult string;
  nightmare_llm : string → PyResult string;
  reconstruction_llm : Request → PyResult string;
  json_parser : string → PyResult ReconstructionOutput
}.

(** [int(x)] on a float raises on NaN and on the infinities. *)
Definition int_defined (x : float) : PyResult unit :=
  if is_nan x then
    Raise (mkExn ValueError "cannot convert float NaN to integer")
  else if is_infinity x then
    Raise (mkExn OverflowError "cannot convert float infinity to integer")
  else Ret ().

(** The comprehension building [emotion_summary_list]: it raises at the
    first score whose percentage has no integer value. *)
Fixpoint emotion_summary_list (emotions : list EmotionDict)
    : PyResult (list EmotionDict) :=
  match emotions with
  | [] => Ret []
  | emo :: rest =>
      int_defined (ed_score emo * 100)%float ;;
      summary ← emotion_summary_list rest;
      Ret (emo :: summary)
  end.

Definition keywords_info (missing : string) (keywords : list string)
    : string :=
  match keywords with
  | [] => missing
  | _ :: _ => String.concat ", " keywords
  end.

(** [int(x)] of a float that has an integer value: truncation toward
    zero. *)
Definition int_of (x : float) : Z :=
  match Prim2SF x with
  | S754_finite negative mantissa exponent =>
      let magnitude := Z.shiftl (Z.pos mantissa) exponent in
      if negative then (- magnitude)%Z else magnitude
  | _ => 0%Z
  end.

(** One entry of [emotion_summary_list], as text. *)
Definition emotion_text (emo : EmotionDict) : string :=
  ed_emotion emo ++ ": " ++ pretty (int_of (ed_score emo * 100)%float) ++ "%".

Definition emotions_info (missing : string) (summary : list EmotionDict)
    : string :=
  match summary with
  | [] => missing
  | _ :: _ => String.concat "; " (map emotion_text summary)
  end.

(** The value of the f-string [system_prompt] of lines 49-68: the three
    texts are spliced into the instructions. *)
Definition nightmare_system_prompt
    (dream_text keywords_info emotions_info : string) : string :=
  "
        You are a prompt artist specializing in psychological horror and dark surrealism for DALL-E 3. Your task is to translate the user's Korean nightmare into a terrifying, atmospheric, and visually striking image prompt in English.

        **Core Mission:**
        Your prompt MUST visualize the central elements and the terrifying, oppressive, or disturbing feelings described in the user's dream and captured by the identified keywords and emotions.
        
        **Analysis Data for Context:**
        - User's Nightmare Description (Korean): " ++ dream_text ++ "
        - Identified Keywords: [" ++ keywords_info ++ "]
        - Emotion Breakdown: [" ++ emotions_info ++ "]

        **Artistic & Thematic Directions:**
        - **Focus:** Emphasize the core frightening elements, atmosphere, and psychological impact of the specific dream provided. Do NOT force themes like AI, digital dystopia, or simulation unless explicitly present in the original dream description or keywords.
        - **Visuals:** Describe the nightmare's visual elements vividly. Use terms that convey the unique horror, dread, tension, or discomfort of the scene. Consider lighting, shadows, colors, and textures that enhance the terrifying atmosphere.
        - **Atmosphere:** Create a strong sense of dread, helplessness, unease, or whatever the predominant negative emotion of the dream is. Use descriptive language to build the scene's mood.
        
        **Safety:** While creating a terrifying image, you must adhere to safety policies. NEVER depict literal self-harm, gore, or extreme violence. Represent fear and pain metaphorically and psychologically.
        
        The final output must be a single, detailed paragraph in English, suitable for direct use by DALL-E 3.
        ".

Fixpoint brace_free (text : string) : bool :=
  match text with
  | EmptyString => true
  | String c rest =>
      negb (Ascii.eqb c "{") && negb (Ascii.eqb c "}") && brace_free rest
  end.

(** [ChatPromptTemplate.from_messages] on the system text, then the
    formatting [chain.invoke] starts with. A text without a brace has no
    replacement field and formats to itself; any other text is the
    library's to parse. *)
Definition format_system_prompt (c : Collaborators) (system_prompt : string)
    (variables : Request) : PyResult string :=
  if brace_free system_prompt then Ret system_prompt
  else template_fields c system_prompt variables.

Definition create_nightmare_prompt (c : Collaborators)
    (dream_text : string) (dream_report : ReportDict) : PyResult string :=
  let keywords := rd_keywords dream_report in
  let info := keywords_info "No specific keywords provided." keywords in
  summary ← emotion_summary_list (rd_emotions dream_report);
  let emotions := emotions_info "No specific emotions detected." summary in
  let system_prompt := nightmare_system_prompt dream_text info emotions in
  system ← format_system_prompt c system_prompt
              (mkRequest dream_text info summary);
  nightmare_llm c system.

Definition create_reconstructed_prompt_and_analysis (c : Collaborators)
    (dream_text : string) (dream_report : ReportDict)
    : PyResult (string * string * list MappingDict) :=
  let keywords := rd_keywords dream_report in
  let info := keywords_info "제공된 특정 키워드 없음." keywords in
  summary ← emotion_summary_list (rd_emotions dream_report);
  raw ← reconstruction_llm c (mkRequest dream_text info summary);
  response ← json_parser c raw;
  let keyword_mappings_dict :=
    map KeywordMapping_dict (keyword_mappings response) in
  Ret (reconstructed_prompt response, transformation_summary response,
       keyword_mappings_dict).

End dream_analyzer_service.

(** ** services/image_generator_service.py *)

Module image_generator_service.

(** One entry of [response.data]: its [url] may be [None]. *)
Record Image := mkImage { url : option string }.

(** What [client.images.generate] does: it returns a response, whose
    [data] may be [None]; or it raises an [APIError], whose [status_code] and
    [response.text] attributes are present or not; or it raises another
    exception. *)
Inductive Outcome :=
  | Response (data : option (list Image))
  | RaisedAPIError (status_code : option Z) (response_text : option string)
  | RaisedOther (e : Exn).

(** What [generate_image_from_prompt] does: it returns a string, or the
    [except APIError] clause itself raises [AttributeError] on the attribute
    it misses (nothing catches an exception raised inside a handler). *)
Inductive Result :=
  | Returned (text : string)
  | AttributeError (attribute : string).

Definition generate_image_from_prompt (images_generate : string → Outcome)
    (prompt : string) : Result :=
  match images_generate prompt with
  | Response data =>
      match data with
      | Some (first :: _) =>
          match url first with
          | Some image_url =>
              if truthy_str image_url then Returned image_url
              else Returned "이미지 생성 실패: 유효한 이미지 URL을 받을 수 없습니다."
          | None => Returned "이미지 생성 실패: 유효한 이미지 URL을 받을 수 없습니다."
          end
      | _ => Returned "이미지 생성 실패: 유효한 이미지 URL을 받을 수 없습니다."
      end
  | RaisedAPIError status_code response_text =>
      match status_code, response_text with
      | Some code, Some text =>
          Returned ("OpenAI API 오류 발생: " ++ pretty code ++ " - " ++ text)
      | None, _ => AttributeError "status_code"
      | Some _, None => AttributeError "response"
      end
  | RaisedOther e => Returned ("이미지 생성 중 오류 발생: " ++ exn_str e)
  end.

End image_generator_service.

(** ** app.py, the helpers and the image panels *)

Module display.

Import image_generator_service.

(** [needle in hay] on [str]. *)
Fixpoint contains (needle hay : string) : bool :=
  String.prefix needle hay
  || match hay with
     | EmptyString => false
     | String _ rest => contains needle rest
     end.

Definition filtered_notice : string :=
  "감정적으로 불편함을 줄 수 있는 요소는 자동 필터링되어, 안전하고 편안한 이미지로 구성되었습니다.".
Definition server_notice : string :=
  "OpenAI 서버에 일시적인 문제가 발생했습니다. 잠시 후 다시 시도해 주세요.".
Definition key_notice : string := "OpenAI API 키가 유효하지 않습니다.".
Definition unknown_notice : string :=
  "알 수 없는 오류로 이미지 생성에 실패했습니다.".

(** Lines 53-60. *)
Definition translate_image_error_message (raw_error_message : string)
    : string :=
  if contains "image_generation_user_error" raw_error_message
     || contains "safety system" raw_error_message
  then filtered_notice
  else if contains "APIConnectionError" raw_error_message
          || contains "500" raw_error_message
  then server_notice
  else if contains "AuthenticationError" raw_error_message
  then key_notice
  else unknown_notice.

(** What one image column draws (lines 218-232 and 234-249): nothing for
    an empty key, the image for a text that starts with "http", and otherwise
    the translated notice with the raw text in an expander. *)
Inductive Panel :=
  | Nothing
  | Picture (image_url : string)
  | Notice (friendly_error raw : string).

Definition image_panel (image_url : string) : Panel :=
  if truthy_str image_url then
    if String.prefix "http" image_url then Picture image_url
    else Notice (translate_image_error_message image_url) image_url
  else Nothing.

End display.

(** ** app.py *)

Module app.

Import moderation_service report_generator_service.
Import dream_analyzer_service(MappingDict).

(** [st.session_state]: one field per key of [session_defaults]. The loop
    that fills the missing keys at the top of every run leaves a session
    that has them all unchanged, and gives a new session the defaults. *)
Record SessionState := mkSessionState {
  dream_text : string;
  original_dream_text : string;
  analysis_started : bool;
  audio_processed : bool;
  dream_report : option ReportDict;
  nightmare_prompt : string;
  reconstructed_prompt : string;
  transformation_summary : string;
  keyword_mappings : list MappingDict;
  nightmare_image_url : string;
  reconstructed_image_url : string;
  nightmare_keywords : list string
}.

Definition session_defaults : SessionState :=
  {| dream_text := "";
     original_dream_text := "";
     analysis_started := false;
     audio_processed := false;
     dream_report := None;
     nightmare_prompt := "";
     reconstructed_prompt := "";
     transformation_summary := "";
     keyword_mappings := [];
     nightmare_image_url := "";
     reconstructed_image_url := "";
     nightmare_keywords := [] |}.

(** Assignments [st.session_state.<key> = v]. *)
Definition set_dream_text (v : string) (s : SessionState)
    : SessionState :=
  {| dream_text := v;
     original_dream_text := original_dream_text s;
     analysis_started := analysis_started s;
     audio_processed := audio_processed s;
     dream_report := dream_report s;
     nightmare_prompt := nightmare_prompt s;
     reconstructed_prompt := reconstructed_prompt s;
     transformation_summary := transformation_summary s;
     keyword_mappings := keyword_mappings s;
     nightmare_image_url := nightmare_image_url s;
     reconstructed_image_url := reconstructed_image_url s;
     nightmare_keywords := nightmare_keywords s |}.

Definition set_original_dream_text (v : string) (s : SessionState)
    : SessionState :=
  {| dream_text := dream_text s;
     original_dream_text := v;
     analysis_started := analysis_started s;
     audio_processed := audio_processed s;
     dream_report := dream_report s;
     nightmare_prompt := nightmare_prompt s;
     reconstructed_prompt := reconstructed_prompt s;
     transformation_summary := transformation_summary s;
     keyword_mappings := keyword_mappings s;
     nightmare_image_url := nightmare_image_url s;
     reconstructed_image_url := reconstructed_image_url s;
     nightmare_keywords := nightmare_keywords s |}.

Definition set_analysis_started (v : bool) (s : SessionState)
    : SessionState :=
  {| dream_text := dream_text s;
     original_dream_text := original_dream_text s;
     analysis_started := v;
     audio_processed := audio_processed s;
     dream_report := dream_report s;
     nightmare_prompt := nightmare_prompt s;
     reconstructed_prompt := reconstructed_prompt s;
     transformation_summary := transformation_summary s;
     keyword_mappings := keyword_mappings s;
     nightmare_image_url := nightmare_image_url s;
     reconstructed_image_url := reconstructed_image_url s;
     nightmare_keywords := nightmare_keywords s |}.

Definition set_audio_processed (v : bool) (s : SessionState)
    : SessionState :=
  {| dream_text := dream_text s;
     original_dream_text := original_dream_text s;
     analysis_started := analysis_started s;
     audio_processed := v;
     dream_report := dream_report s;
     nightmare_prompt := nightmare_prompt s;
     reconstructed_prompt := reconstructed_prompt s;
     transformation_summary := transformation_summary s;
     keyword_mappings := keyword_mappings s;
     nightmare_image_url := nightmare_image_url s;
     reconstructed_image_url := reconstructed_image_url s;
     nightmare_keywords := nightmare_keywords s |}.

Definition set_dream_report (v : option ReportDict) (s : SessionState)
    : SessionState :=
  {| dream_text := dream_text s;
     original_dream_text := original_dream_text s;
     analysis_started := analysis_started s;
     audio_processed := audio_processed s;
     dream_report := v;
     nightmare_prompt := nightmare_prompt s;
     reconstructed_prompt := reconstructed_prompt s;
     transformation_summary := transformation_summary s;
     keyword_mappings := keyword_mappings s;
     nightmare_image_url := nightmare_image_url s;
     reconstructed_image_url := reconstructed_image_url s;
     nightmare_keywords := nightmare_keywords s |}.

Definition set_nightmare_prompt (v : string) (s : SessionState)
    : SessionState :=
  {| dream_text := dream_text s;
     original_dream_text := original_dream_text s;
     analysis_started := analysis_started s;
     audio_processed := audio_processed s;
     dream_report := dream_report s;
     nightmare_prompt := v;
     reconstructed_prompt := reconstructed_prompt s;
     transformation_summary := transformation_summary s;
     keyword_mappings := keyword_mappings s;
     nightmare_image_url := nightmare_image_url s;
     reconstructed_image_url := reconstructed_image_url s;
     nightmare_keywords := nightmare_keywords s |}.

Definition set_reconstructed_prompt (v : string) (s : SessionState)
    : SessionState :=
  {| dream_text := dream_text s;
     original_dream_text := original_dream_text s;
     analysis_started := analysis_started s;
     audio_processed := audio_processed s;
     dream_report := dream_report s;
     nightmare_prompt := nightmare_prompt s;
     reconstructed_prompt := v;
     transformation_summary := transformation_summary s;
     keyword_mappings := keyword_mappings s;
     nightmare_image_url := nightmare_image_url s;
     reconstructed_image_url := reconstructed_image_url s;
     nightmare_keywords := nightmare_keywords s |}.

Definition set_transformation_summary (v : string) (s : SessionState)
    : SessionState :=
  {| dream_text := dream_text s;
     original_dream_text := original_dream_text s;
     analysis_started := analysis_started s;
     audio_processed := audio_processed s;
     dream_report := dream_report s;
     nightmare_prompt := nightmare_prompt s;
     reconstructed_prompt := reconstructed_prompt s;
     transformation_summary := v;
     keyword_mappings := keyword_mappings s;
     nightmare_image_url := nightmare_image_url s;
     reconstructed_image_url := reconstructed_image_url s;
     nightmare_keywords := nightmare_keywords s |}.

Definition set_keyword_mappings (v : list MappingDict) (s : SessionState)
    : SessionState :=
  {| dream_text := dream_text s;
     original_dream_text := original_dream_text s;
     analysis_started := analysis_started s;
     audio_processed := audio_processed s;
     dream_report := dream_report s;
     nightmare_prompt := nightmare_prompt s;
     reconstructed_prompt := reconstructed_prompt s;
     transformation_summary := transformation_summary s;
     keyword_mappings := v;
     nightmare_image_url := nightmare_image_url s;
     reconstructed_image_url := reconstructed_image_url s;
     nightmare_keywords := nightmare_keywords s |}.

Definition set_nightmare_image_url (v : string) (s : SessionState)
    : SessionState :=
  {| dream_text := dream_text s;
     original_dream_text := original_dream_text s;
     analysis_started := analysis_started s;
     audio_processed := audio_processed s;
     dream_report := dream_report s;
     nightmare_prompt := nightmare_prompt s;
     reconstructed_prompt := reconstructed_prompt s;
     transformation_summary := transformation_summary s;
     keyword_mappings := keyword_mappings s;
     nightmare_image_url := v;
     reconstructed_image_url := reconstructed_image_url s;
     nightmare_keywords := nightmare_keywords s |}.

Definition set_reconstructed_image_url (v : string) (s : SessionState)
    : SessionState :=
  {| dream_text := dream_text s;
     original_dream_text := original_dream_text s;
     analysis_started := analysis_started s;
     audio_processed := audio_processed s;
     dream_report := dream_report s;
     nightmare_prompt := nightmare_prompt s;
     reconstructed_prompt := reconstructed_prompt s;
     transformation_summary := transformation_summary s;
     keyword_mappings := keyword_mappings s;
     nightmare_image_url := nightmare_image_url s;
     reconstructed_image_url := v;
     nightmare_keywords := nightmare_keywords s |}.

Definition set_nightmare_keywords (v : list string) (s : SessionState)
    : SessionState :=
  {| dream_text := dream_text s;
     original_dream_text := original_dream_text s;
     analysis_started := analysis_started s;
     audio_processed := audio_processed s;
     dream_report := dream_report s;
     nightmare_prompt := nightmare_prompt s;
     reconstructed_prompt := reconstructed_prompt s;
     transformation_summary := transformation_summary s;
     keyword_mappings := keyword_mappings s;
     nightmare_image_url := nightmare_image_url s;
     reconstructed_image_url := reconstructed_image_url s;
     nightmare_keywords := v |}.

(** What one script run receives from the services created by
    [initialize_services]: each method call either returns or raises. *)
Record Services := mkServices {
  stt_transcribe_audio : gmap string bytes → string → PyResult string;
  moderator_check_text_safety : string → PyResult SafetyResult;
  report_gen_generate_report_with_rag : string → PyResult ReportDict;
  analyzer_create_nightmare_prompt :
    string → ReportDict → PyResult string;
  analyzer_create_reconstructed_prompt_and_analysis :
    string → ReportDict → PyResult (string * string * list MappingDict);
  img_gen_generate_image_from_prompt : string → PyResult string
}.

(** The widgets and the operating system, as one run observes them. *)
Record Inputs := mkInputs {
  wav_audio_data : option bytes;            (* st_audiorec() *)
  uploaded_file : option (bytes * string);  (* getvalue(), name *)
  temp_name : string;                       (* path chosen for the temp file *)
  temp_create : PyResult unit;              (* NamedTemporaryFile(...) *)
  temp_write : PyResult unit;               (* temp_file.write(...) *)
  analyze_clicked : bool;
  nightmare_clicked : bool;
  reconstruct_clicked : bool;
  services : Services
}.

Inductive Level := Success | Info | Warning | Error.

(** The journal of a session: every call to a collaborator, the verdict of
    every moderation call that returned, and the status boxes shown. *)
Inductive Event :=
  | TranscribeCall (audio_path : string)
  | ModerationCall (text : string)
  | ModerationVerdict (text : string) (is_flagged : bool)
  | ReportCall (text : string)
  | NightmarePromptCall (text : string)
  | ReconstructionCall (text : string)
  | ImageCall (prompt : string)
  | Shown (level : Level) (text : string).

Record Machine := mkMachine {
  session_state : SessionState;
  scratch : gmap string bytes;
  journal : list Event;
  audio_path : option string     (* the script's local variable *)
}.

(** A run ends at the last line, at [st.rerun()], or at an exception no
    handler caught. *)
Inductive Exit := Rerun | Uncaught (e : Exn).

Inductive Outcome (A : Type) :=
  | Next (a : A)
  | Stop (x : Exit).
Arguments Next {A} a.
Arguments Stop {A} x.

Definition Script (A : Type) : Type := Machine → Machine * Outcome A.

Global Instance script_ret : MRet Script := λ _ a m, (m, Next a).
Global Instance script_bind : MBind Script := λ _ _ f c m,
  match c m with
  | (m', Next a) => f a m'
  | (m', Stop x) => (m', Stop x)
  end.

Definition get : Script SessionState := λ m, (m, Next (session_state m)).

Definition modify (f : SessionState → SessionState) : Script unit := λ m,
  (mkMachine (f (session_state m)) (scratch m) (journal m) (audio_path m),
   Next ()).

Definition emit (ev : Event) : Script unit := λ m,
  (mkMachine (session_state m) (scratch m) (journal m ++ [ev]) (audio_path m),
   Next ()).

Definition show (level : Level) (text : string) : Script unit :=
  emit (Shown level text).

Definition call {A : Type} (r : PyResult A) : Script A := λ m,
  match r with
  | Ret a => (m, Next a)
  | Raise e => (m, Stop (Uncaught e))
  end.

Definition st_rerun : Script unit := λ m, (m, Stop Rerun).

Definition get_audio_path : Script (option string) := λ m,
  (m, Next (audio_path m)).

Definition set_audio_path (p : option string) : Script unit := λ m,
  (mkMachine (session_state m) (scratch m) (journal m) p, Next ()).

Definition get_scratch : Script (gmap string bytes) := λ m,
  (m, Next (scratch m)).

Definition set_scratch (fs : gmap string bytes) : Script unit := λ m,
  (mkMachine (session_state m) fs (journal m) (audio_path m), Next ()).

(** [try: body finally: cleanup]: the cleanup runs however the body ended,
    and an exit of the cleanup replaces that of the body. *)
Definition try_finally {A : Type} (body : Script A) (cleanup : Script unit)
    : Script A := λ m,
  match body m with
  | (m1, r) =>
      match cleanup m1 with
      | (m2, Next _) => (m2, r)
      | (m2, Stop x) => (m2, Stop x)
      end
  end.

Definition initialize_session_state : Script unit :=
  modify (λ _, session_defaults).

(** Lines 110-118: the recorder tab, then the upload tab. *)
Definition audio_input (inp : Inputs) : option bytes :=
  let recorded :=
    match wav_audio_data inp with
    | Some data => if truthy_bytes data then Some data else None
    | None => None
    end in
  match uploaded_file inp with
  | Some (value, _) => Some value
  | None => recorded
  end.

Definition truthy_audio (audio_bytes : option bytes) : bool :=
  match audio_bytes with
  | Some data => truthy_bytes data
  | None => false
  end.

(** [os.path.exists] and [os.remove] on the scratch directory. *)
Definition path_exists (fs : gmap string bytes) (p : string) : bool :=
  match fs !! p with
  | Some _ => true
  | None => false
  end.

(** Lines 125-127: the file is created (and kept: [delete=False]), then
    written; [audio_path] is bound only after the write. *)
Definition write_temp_file (inp : Inputs) (audio_bytes : bytes)
    : Script string :=
  let name := temp_name inp ++ ".wav" in
  call (temp_create inp) ;;
  fs ← get_scratch;
  set_scratch (<[name := []]> fs) ;;
  call (temp_write inp) ;;
  set_scratch (<[name := audio_bytes]> fs) ;;
  set_audio_path (Some name) ;;
  mret name.

(** Lines 128-138. *)
Definition transcribe_and_moderate (inp : Inputs) (path : string)
    : Script unit :=
  fs ← get_scratch;
  emit (TranscribeCall path) ;;
  transcribed_text ← call (stt_transcribe_audio (services inp) fs path);
  modify (set_original_dream_text transcribed_text) ;;
  emit (ModerationCall transcribed_text) ;;
  safety_result ←
    call (moderator_check_text_safety (services inp) transcribed_text);
  emit (ModerationVerdict transcribed_text (sr_flagged safety_result)) ;;
  (if negb (sr_flagged safety_result) then
     modify (set_dream_text transcribed_text) ;;
     show Success ("안전성 검사: " ++ sr_text safety_result)
   else
     show Error (sr_text safety_result) ;;
     modify (set_dream_text "")) ;;
  modify (set_audio_processed true).

(** Lines 139-141. *)
Definition remove_temp_file : Script unit :=
  p ← get_audio_path;
  fs ← get_scratch;
  match p with
  | Some path =>
      if truthy_str path && path_exists fs path
      then set_scratch (delete path fs)
      else mret ()
  | None => mret ()
  end.

(** Lines 121-142. *)
Definition audio_processing (inp : Inputs) : Script unit :=
  s ← get;
  let audio_bytes := audio_input inp in
  if truthy_audio audio_bytes && negb (audio_processed s) then
    initialize_session_state ;;
    set_audio_path None ;;
    try_finally
      (path ← write_temp_file inp (default [] audio_bytes);
       transcribe_and_moderate inp path)
      remove_temp_file ;;
    st_rerun
  else mret ().

(** Lines 145-154. *)
Definition analysis_start (inp : Inputs) : Script unit :=
  s ← get;
  if truthy_str (original_dream_text s) then
    show Info (original_dream_text s) ;;
    if truthy_str (dream_text s) && negb (analysis_started s) then
      if analyze_clicked inp then
        modify (set_analysis_started true) ;;
        st_rerun
      else mret ()
    else if negb (truthy_str (dream_text s)) && audio_processed s then
      show Warning "입력된 꿈 내용이 안전성 검사를 통과하지 못했습니다."
    else mret ()
  else mret ().

(** Lines 157-166. *)
Definition report_generation (inp : Inputs) : Script unit :=
  s ← get;
  if analysis_started s && negb (is_Some_b (dream_report s)) then
    if truthy_str (original_dream_text s) then
      emit (ReportCall (original_dream_text s)) ;;
      report ←
        call (report_gen_generate_report_with_rag (services inp)
                (original_dream_text s));
      modify (set_dream_report (Some report)) ;;
      modify (set_nightmare_keywords (rd_keywords report)) ;;
      st_rerun
    else
      show Error "분석할 꿈 텍스트가 없습니다." ;;
      modify (set_analysis_started false)
  else mret ().

(** [math.isclose(a, b, rel_tol=1e-9, abs_tol=1e-9)]; the literal is the
    binary64 value of [1e-9]. *)
Definition isclose (a b : float) : bool :=
  let tol := 0x1.12e0be826d695p-30%float in
  let diff := abs (b - a) in
  (a =? b)%float
  || (negb (is_infinity a) && negb (is_infinity b)
      && ((diff <=? abs (tol * b))%float
          || (diff <=? abs (tol * a))%float
          || (diff <=? tol)%float)).

(** [st.progress(score, ...)] on a float: Streamlit accepts a value of
    [0.0, 1.0] and a value close to one of the two bounds, and rejects any
    other. *)
Definition st_progress (score : float) : Script unit :=
  if ((0 <=? score) && (score <=? 1))%float
     || isclose score 0 || isclose score 1
  then mret ()
  else call (Raise (mkExn StreamlitAPIException
                      "Progress Value has invalid value [0.0, 1.0]")).

(** Lines 176-178. *)
Fixpoint emotion_bars (emotions : list EmotionDict) : Script unit :=
  match emotions with
  | [] => mret ()
  | emotion :: rest => st_progress (ed_score emotion) ;; emotion_bars rest
  end.

(** Lines 198-203. *)
Definition nightmare_view (inp : Inputs) (report : ReportDict)
    : Script unit :=
  if nightmare_clicked inp then
    s ← get;
    emit (NightmarePromptCall (original_dream_text s)) ;;
    prompt ←
      call (analyzer_create_nightmare_prompt (services inp)
              (original_dream_text s) report);
    modify (set_nightmare_prompt prompt) ;;
    emit (ImageCall prompt) ;;
    url ← call (img_gen_generate_image_from_prompt (services inp) prompt);
    modify (set_nightmare_image_url url) ;;
    st_rerun
  else mret ().

(** Lines 205-210. *)
Definition reconstruction_view (inp : Inputs) (report : ReportDict)
    : Script unit :=
  if reconstruct_clicked inp then
    s ← get;
    emit (ReconstructionCall (original_dream_text s)) ;;
    '(prompt, summary, mappings) ←
      call (analyzer_create_reconstructed_prompt_and_analysis (services inp)
              (original_dream_text s) report);
    modify (set_reconstructed_prompt prompt) ;;
    modify (set_transformation_summary summary) ;;
    modify (set_keyword_mappings mappings) ;;
    emit (ImageCall prompt) ;;
    url ← call (img_gen_generate_image_from_prompt (services inp) prompt);
    modify (set_reconstructed_image_url url) ;;
    st_rerun
  else mret ().

(** Lines 187-190. *)
Definition summary_box (report : ReportDict) : Script unit :=
  let summary := rd_analysis_summary report in
  if truthy_str summary then show Info summary else mret ().

(** One image column (lines 218-232 and 234-249): a text that is not the
    address of an image is shown as an error box, in its translation; an
    address is drawn as a picture with its expander, which shows no status
    box. *)
Definition image_column (image_url : string) : Script unit :=
  match display.image_panel image_url with
  | display.Notice friendly_error _ => show Error friendly_error
  | display.Picture _ | display.Nothing => mret ()
  end.

(** Lines 212-249. *)
Definition image_panels : Script unit :=
  s ← get;
  if truthy_str (nightmare_image_url s)
     || truthy_str (reconstructed_image_url s)
  then
    image_column (nightmare_image_url s) ;;
    image_column (reconstructed_image_url s)
  else mret ().

(** Lines 169-249. A report dictionary always has its three keys, so it is
    truthy whenever it is present. *)
Definition results (inp : Inputs) : Script unit :=
  s ← get;
  match dream_report s with
  | Some report =>
      emotion_bars (rd_emotions report) ;;
      summary_box report ;;
      nightmare_view inp report ;;
      reconstruction_view inp report ;;
      image_panels
  | None => mret ()
  end.

(** One run of the script, top to bottom. *)
Definition script (inp : Inputs) : Script unit :=
  audio_processing inp ;;
  analysis_start inp ;;
  report_generation inp ;;
  results inp.

(** A run starts with an empty [audio_path]; what it leaves behind is the
    machine the next run starts from. *)
Definition run (m : Machine) (inp : Inputs) : Machine :=
  (script inp (mkMachine (session_state m) (scratch m) (journal m) None)).1.

Definition exit_of (m : Machine) (inp : Inputs) : Outcome unit :=
  (script inp (mkMachine (session_state m) (scratch m) (journal m) None)).2.

(** A new browser session on a scratch directory [fs]. *)
Definition new_session (fs : gmap string bytes) : Machine :=
  mkMachine session_defaults fs [] None.

Definition runs (m : Machine) (inps : list Inputs) : Machine :=
  foldl run m inps.

(** The services of [initialize_services], over the hosted providers. The
    image service is taken whole: no property below looks inside it. *)
Record Providers := mkProviders {
  transcriptions_create : bytes → PyResult string;
  moderations_create : string → PyResult (list ModerationResult);
  report_collaborators : report_generator_service.Collaborators;
  analyzer_collaborators : dream_analyzer_service.Collaborators;
  generate_image_from_prompt : string → PyResult string
}.

Definition initialize_services (w : Providers) : Services :=
  {| stt_transcribe_audio fs path :=
       Ret (stt_service.transcribe_audio (transcriptions_create w) fs path);
     moderator_check_text_safety text :=
       Ret (check_text_safety (moderations_create w) text);
     report_gen_generate_report_with_rag :=
       generate_report_with_rag (report_collaborators w);
     analyzer_create_nightmare_prompt :=
       dream_analyzer_service.create_nightmare_prompt
         (analyzer_collaborators w);
     analyzer_create_reconstructed_prompt_and_analysis :=
       dream_analyzer_service.create_reconstructed_prompt_and_analysis
         (analyzer_collaborators w);
     img_gen_generate_image_from_prompt := generate_image_from_prompt w |}.

(** Providers and inputs with one part replaced. *)
Definition with_report_parser (w : Providers)
    (p : string → PyResult Report) : Providers :=
  {| transcriptions_create := transcriptions_create w;
     moderations_create := moderations_create w;
     report_collaborators :=
       {| retriever := retriever (report_collaborators w);
          llm := llm (report_collaborators w);
          parser := p |};
     analyzer_collaborators := analyzer_collaborators w;
     generate_image_from_prompt := generate_image_from_prompt w |}.

Definition with_transcriptions (w : Providers)
    (t : bytes → PyResult string) : Providers :=
  {| transcriptions_create := t;
     moderations_create := moderations_create w;
     report_collaborators := report_collaborators w;
     analyzer_collaborators := analyzer_collaborators w;
     generate_image_from_prompt := generate_image_from_prompt w |}.

Definition with_moderations (w : Providers)
    (f : string → PyResult (list ModerationResult)) : Providers :=
  {| transcriptions_create := transcriptions_create w;
     moderations_create := f;
     report_collaborators := report_collaborators w;
     analyzer_collaborators := analyzer_collaborators w;
     generate_image_from_prompt := generate_image_from_prompt w |}.

Definition with_services (inp : Inputs) (svc : Services) : Inputs :=
  {| wav_audio_data := wav_audio_data inp;
     uploaded_file := uploaded_file inp;
     temp_name := temp_name inp; temp_create := temp_create inp;
     temp_write := temp_write inp;
     analyze_clicked := analyze_clicked inp;
     nightmare_clicked := nightmare_clicked inp;
     reconstruct_clicked := reconstruct_clicked inp;
     services := svc |}.

End app.

(** ** core/indexing_service.py *)

Module indexing_service.

(** What [build_vector_store] meets: the environment variable, the two
    directory loaders, the text splitter, and the embedding of the chunks
    followed by [save_local]. *)
Record Collaborators := mkCollaborators {
  getenv_api_key : option string;
  md_loader_load : PyResult (list string);
  txt_loader_load : PyResult (list string);
  split_documents : list string → list string;
  embed_and_save : list string → PyResult unit
}.

(** How a call that did not raise ended; every case but [Saved] is a
    message printed before [return]. *)
Inductive Built :=
  | LoadFailed (e : Exn)
  | NoDocuments
  | NoChunks
  | Saved (docs : list string)
  | SaveFailed (e : Exn).

Definition truthy_env (v : option string) : bool :=
  match v with
  | Some s => truthy_str s
  | None => false
  end.

Definition build_vector_store (c : Collaborators) : PyResult Built :=
  if negb (truthy_env (getenv_api_key c)) then
    Raise (mkExn ValueError "OPENAI_API_KEY 환경변수가 설정되지 않았습니다.")
  else
    match (documents ← md_loader_load c;
           more ← txt_loader_load c;
           Ret (documents ++ more)%list) with
    | Raise e => Ret (LoadFailed e)
    | Ret documents =>
        match documents with
        | [] => Ret NoDocuments
        | _ :: _ =>
            let docs := split_documents c documents in
            match docs with
            | [] => Ret NoChunks
            | _ :: _ =>
                match embed_and_save c docs with
                | Ret _ => Ret (Saved docs)
                | Raise e => Ret (SaveFailed e)
                end
            end
        end
    end.

End indexing_service.

(** ** Concrete sessions

    Providers and widget inputs on which the definitions above are run. *)

Module scenario.

Import moderation_service report_generator_service app.

Definition forest_dream : string :=
  "I was being chased through a dark forest by a shadow".

Definition forest_report : Report :=
  mkReport [mkEmotion "fear" 0.75%float] ["forest"; "shadow"]
    "Being chased stands for an avoided worry.".

Definition forest_reconstruction : dream_analyzer_service.ReconstructionOutput :=
  dream_analyzer_service.mkReconstructionOutput
    "A sunlit forest path with a friendly guide"
    "The forest became a place of rest."
    [dream_analyzer_service.mkKeywordMapping "forest" "sunlit grove";
     dream_analyzer_service.mkKeywordMapping "shadow" "friendly guide";
     dream_analyzer_service.mkKeywordMapping "chase" "walk"].

(** Every provider answers; the text passes moderation. The template
    library, asked to format a text with a brace, finds a field that names
    no variable. *)
Definition calm : Providers :=
  {| transcriptions_create _ := Ret forest_dream;
     moderations_create _ :=
       Ret [mkModerationResult false [("violence", false)]];
     report_collaborators :=
       {| retriever := Some (λ _, Ret [mkDocument "Forests stand for the unknown."]);
          llm _ _ := Ret "{report}";
          parser _ := Ret forest_report |};
     analyzer_collaborators :=
       {| dream_analyzer_service.template_fields _ _ :=
            Raise (mkExn KeyError
                     "Input to ChatPromptTemplate is missing variables");
          dream_analyzer_service.nightmare_llm _ :=
            Ret "A shadow between black trees";
          dream_analyzer_service.reconstruction_llm _ :=
            Ret "{reconstruction}";
          dream_analyzer_service.json_parser _ :=
            Ret forest_reconstruction |};
     generate_image_from_prompt _ := Ret "https://images.example/1" |}.

(** A run in which the user does nothing. *)
Definition idle (w : Providers) : Inputs :=
  {| wav_audio_data := None; uploaded_file := None;
     temp_name := "/tmp/tmpa1b2c3"; temp_create := Ret (); temp_write := Ret ();
     analyze_clicked := false; nightmare_clicked := false;
     reconstruct_clicked := false;
     services := initialize_services w |}.

Definition recording : bytes := [Byte.x52; Byte.x49; Byte.x46; Byte.x46].
Definition second_recording : bytes := [Byte.x4f; Byte.x67; Byte.x67].

(** A run that finds a recording in the recorder widget. *)
Definition speak (w : Providers) (audio : bytes) : Inputs :=
  {| wav_audio_data := Some audio; uploaded_file := None;
     temp_name := "/tmp/tmpa1b2c3"; temp_create := Ret (); temp_write := Ret ();
     analyze_clicked := false; nightmare_clicked := false;
     reconstruct_clicked := false;
     services := initialize_services w |}.

Definition click_analyze (w : Providers) : Inputs :=
  {| wav_audio_data := None; uploaded_file := None;
     temp_name := "/tmp/tmpa1b2c3"; temp_create := Ret (); temp_write := Ret ();
     analyze_clicked := true; nightmare_clicked := false;
     reconstruct_clicked := false;
     services := initialize_services w |}.

Definition click_nightmare (w : Providers) : Inputs :=
  {| wav_audio_data := None; uploaded_file := None;
     temp_name := "/tmp/tmpa1b2c3"; temp_create := Ret (); temp_write := Ret ();
     analyze_clicked := false; nightmare_clicked := true;
     reconstruct_clicked := false;
     services := initialize_services w |}.

(** The moderation endpoint flags every text. *)
Definition strict : Providers :=
  with_moderations calm
    (λ _, Ret [mkModerationResult true [("violence", true); ("hate", false)]]).

(** The chat model answers with text the report parser rejects. *)
Definition unparsable : Providers :=
  with_report_parser calm
    (λ raw, Raise (mkExn OutputParserException
                     ("Failed to parse Report from completion " ++ raw))).

(** The report parser accepts a report with an unnamed emotion of score
    1.5 and no keyword: every field has the type the schema asks for. *)
Definition odd_report : Report :=
  mkReport [mkEmotion "" 1.5%float] [] "Nothing stands out.".

Definition careless : Providers :=
  with_report_parser calm (λ _, Ret odd_report).

(** The reconstruction parser accepts a single mapping of a keyword onto
    itself. *)
Definition echo : dream_analyzer_service.Collaborators :=
  {| dream_analyzer_service.template_fields _ _ :=
       Raise (mkExn KeyError
                "Input to ChatPromptTemplate is missing variables");
     dream_analyzer_service.nightmare_llm _ := Ret "A shadow between black trees";
     dream_analyzer_service.reconstruction_llm _ := Ret "{reconstruction}";
     dream_analyzer_service.json_parser _ :=
       Ret (dream_analyzer_service.mkReconstructionOutput
              "A forest" "Nothing was changed."
              [dream_analyzer_service.mkKeywordMapping "forest" "forest"]) |}.

(** The transcription endpoint rejects the API key. *)
Definition locked_out : Providers :=
  with_transcriptions calm
    (λ _, Raise (mkExn AuthenticationError "Error code: 401")).

(** The moderation endpoint cannot be reached. *)
Definition unreachable : Providers :=
  with_moderations calm
    (λ _, Raise (mkExn APIConnectionError "Connection error.")).

(** A run that finds a recording while the moderator object itself raises
    instead of returning. *)
Definition interrupted : Inputs :=
  with_services (speak calm recording)
    {| stt_transcribe_audio :=
         stt_transcribe_audio (initialize_services calm);
       moderator_check_text_safety _ :=
         Raise (mkExn RuntimeError "interrupted");
       report_gen_generate_report_with_rag :=
         report_gen_generate_report_with_rag (initialize_services calm);
       analyzer_create_nightmare_prompt :=
         analyzer_create_nightmare_prompt (initialize_services calm);
       analyzer_create_reconstructed_prompt_and_analysis :=
         analyzer_create_reconstructed_prompt_and_analysis
           (initialize_services calm);
       img_gen_generate_image_from_prompt :=
         img_gen_generate_image_from_prompt (initialize_services calm) |}.

(** Speak, confirm, wait for the next run. *)
Definition confirm_and_wait (w : Providers) : list Inputs :=
  [speak w recording; click_analyze w; idle w].

(** Up to the nightmare image: speak, confirm, let the report be generated,
    ask for the nightmare view. *)
Definition to_nightmare_ready (w : Providers) : list Inputs :=
  [speak w recording; click_analyze w; idle w; click_nightmare w].

End scenario.

(** ** Specification vocabulary *)

Import moderation_service report_generator_service app.

(** The events a run added to the journal. *)
Definition events_since (m m' : Machine) : list Event :=
  drop (List.length (journal m)) (journal m').

(** Every call of the report generator comes after a moderation verdict
    that passed the very text the call is made on. *)
Definition gated (j : list Event) : Prop :=
  ∀ l1 t l2, j = (l1 ++ ReportCall t :: l2)%list →
    ModerationVerdict t false ∈ l1.

(** What every machine a session can reach satisfies. *)
Record Inv (m : Machine) : Prop := mkInv {
  inv_working_text :
    dream_text (session_state m) = ""
    ∨ dream_text (session_state m) = original_dream_text (session_state m);
  inv_confirmed :
    analysis_started (session_state m) = true →
    dream_text (session_state m) ≠ "";
  inv_passed :
    dream_text (session_state m) ≠ "" →
    audio_processed (session_state m) = true
    ∧ ModerationVerdict (dream_text (session_state m)) false ∈ journal m;
  inv_flagged : ∀ t,
    ModerationVerdict t true ∈ journal m →
    dream_text (session_state m) = "";
  inv_report :
    dream_report (session_state m) ≠ None →
    analysis_started (session_state m) = true;
  inv_report_calls : ∀ t,
    ReportCall t ∈ journal m →
    analysis_started (session_state m) = true
    ∧ t = original_dream_text (session_state m);
  inv_fresh :
    audio_processed (session_state m) = false →
    ∀ t b, ModerationVerdict t b ∉ journal m;
  inv_gated : gated (journal m)
}.

(** A script keeps the invariant, however it ends. *)
Definition keeps {A : Type} (c : Script A) : Prop :=
  ∀ m, Inv m → Inv (c m).1.

(** The part of the session the invariant reads, and the events it does
    not look at. *)
Definition core (s : SessionState)
    : string * string * bool * bool * option ReportDict :=
  (dream_text s, original_dream_text s, analysis_started s,
   audio_processed s, dream_report s).

Definition quiet (ev : Event) : bool :=
  match ev with
  | ModerationVerdict _ _ | ReportCall _ => false
  | _ => true
  end.

(** The same run with both audio widgets empty. *)
Definition without_audio (inp : Inputs) : Inputs :=
  {| wav_audio_data := None; uploaded_file := None;
     temp_name := temp_name inp; temp_create := temp_create inp;
     temp_write := temp_write inp;
     analyze_clicked := analyze_clicked inp;
     nightmare_clicked := nightmare_clicked inp;
     reconstruct_clicked := reconstruct_clicked inp;
     services := services inp |}.

(** The machine [m] with its session put back to [session_defaults]. *)
Definition reset (m : Machine) : Machine :=
  mkMachine session_defaults (scratch m) (journal m) (audio_path m).

(** The contracts the report and reconstruction schemas are described
    with: scores in the unit interval, labels not empty, keywords present
    when emotions are; three to five mappings, none onto itself. *)
Definition unit_interval (x : float) : bool :=
  ((0 <=? x) && (x <=? 1))%float.

Definition report_contract (d : ReportDict) : Prop :=
  Forall (λ e, unit_interval (ed_score e) = true ∧ ed_emotion e ≠ "")
    (rd_emotions d)
  ∧ (rd_emotions d ≠ [] → rd_keywords d ≠ []).

Definition mappings_contract (l : list dream_analyzer_service.MappingDict)
    : Prop :=
  (3 ≤ List.length l ≤ 5)%nat
  ∧ Forall (λ m, dream_analyzer_service.md_transformed m
                 ≠ dream_analyzer_service.md_original m) l.

(** Status boxes, as opposed to calls of a service. *)
Definition only_shown (ev : Event) : bool :=
  match ev with
  | Shown _ _ => true
  | _ => false
  end.

(** The calls of services among the events of a run, in order. *)
Definition service_calls (evs : list Event) : list Event :=
  List.filter (λ ev, negb (only_shown ev)) evs.

(** Every percentage [score * 100] has an integer value. *)
Definition percentages_defined (emotions : list EmotionDict) : bool :=
  forallb (λ emo, is_finite (ed_score emo * 100)%float) emotions.

(** Every score of the report is a value [st.progress] draws. *)
Definition scores_in_range (report : ReportDict) : bool :=
  forallb (λ emo, unit_interval (ed_score emo)) (rd_emotions report).

(** * Properties *)

#[local] Set Warnings "-clear-no-such-hyp".

(** ** Running a script symbolically *)

Lemma truthy_str_true s : truthy_str s = true ↔ s ≠ "".
Proof. destruct s; simpl; split; congruence. Qed.

Lemma truthy_str_false s : truthy_str s = false ↔ s = "".
Proof. destruct s; simpl; split; congruence. Qed.

(** The progress bars change nothing: they are drawn, or the run stops at
    the first score outside the unit interval. *)
Lemma emotion_bars_cases l m :
  emotion_bars l m = (m, Next ())
  ∨ ∃ e, emotion_bars l m = (m, Stop (Uncaught e)).
Proof.
  induction l as [|emo l IH]; simpl; [by left|].
  unfold st_progress, mbind, script_bind.
  destruct (_ || _)%bool; simpl.
  - exact IH.
  - right. by eexists.
Qed.

Ltac unfold_script :=
  unfold run, exit_of, script, audio_processing, analysis_start,
    report_generation, results, summary_box, image_panels, image_column,
    nightmare_view, reconstruction_view,
    write_temp_file, transcribe_and_moderate, remove_temp_file, try_finally,
    initialize_session_state, show, emit, get, modify, call,
    st_rerun, get_audio_path, set_audio_path, get_scratch, set_scratch,
    mbind, script_bind, mret, script_ret in *.

Ltac bars_step :=
  match goal with
  | |- context [emotion_bars ?l ?m] =>
      destruct (emotion_bars_cases l m) as [-> | [? ->]]
  end.

(** Open the combinators and split on every test of the script. *)
Ltac exec :=
  unfold_script; simpl in *;
  repeat (first [bars_step | case_match];
          simplify_eq/=; unfold_script; simpl in * ).

Ltac bools :=
  rewrite ?andb_true_iff, ?andb_false_iff, ?negb_true_iff, ?negb_false_iff,
    ?truthy_str_true, ?truthy_str_false in *.

Ltac journal_facts :=
  repeat match goal with
  | H : negb _ = true |- _ => apply negb_true_iff in H
  | H : negb _ = false |- _ => apply negb_false_iff in H
  | H : _ ∈ (_ ++ _)%list |- _ => apply elem_of_app in H as [H|H]
  | H : _ ∈ [] |- _ => by apply elem_of_nil in H
  | H : _ ∈ _ :: _ |- _ => apply elem_of_cons in H as [H|H]; simplify_eq
  | |- _ ∉ _ => intros ?
  end.

(** ** The journal only grows *)

Lemma journal_run m inp :
  journal (run m inp) = (journal m ++ events_since m (run m inp))%list.
Proof.
  unfold events_since. destruct m as [s fs j p]; simpl.
  exec.
  all: rewrite <- ?app_assoc;
    rewrite ?drop_app_length, ?drop_all, ?app_nil_r; done.
Qed.

Lemma journal_runs m inps :
  journal (runs m inps) = (journal m ++ events_since m (runs m inps))%list.
Proof.
  unfold events_since. revert m.
  induction inps as [|inp inps IH]; intros m; simpl.
  - by rewrite drop_all, app_nil_r.
  - rewrite (IH (run m inp)) at 1. rewrite (journal_run m inp) at 1.
    rewrite <- app_assoc. f_equal.
    rewrite (IH (run m inp)) at 2. rewrite (journal_run m inp) at 2.
    rewrite <- app_assoc. by rewrite drop_app_length.
Qed.

(** ** The invariant *)

Lemma gated_nil : gated [].
Proof. intros [|? ?] ? ? ?; discriminate. Qed.

Lemma gated_snoc j ev :
  gated j →
  (∀ t, ev = ReportCall t → ModerationVerdict t false ∈ j) →
  gated (j ++ [ev]).
Proof.
  intros Hj Hev l1 t l2 Heq.
  destruct l2 as [|x l2 _] using rev_ind.
  - apply app_inj_tail in Heq as [-> ->]. by apply Hev.
  - rewrite app_comm_cons, app_assoc in Heq.
    apply app_inj_tail in Heq as [-> _]. by eapply Hj.
Qed.

Lemma quiet_elem ev evs :
  forallb quiet evs = true → ev ∈ evs → quiet ev = true.
Proof.
  intros Hq Hin. apply list_elem_of_In in Hin.
  by apply (proj1 (forallb_forall _ _) Hq).
Qed.

Lemma gated_quiet j evs :
  gated j → forallb quiet evs = true → gated (j ++ evs).
Proof.
  intros Hj. induction evs as [|ev evs IH] using rev_ind; intros Hq.
  - by rewrite app_nil_r.
  - rewrite forallb_app in Hq. apply andb_true_iff in Hq as [Hq Hev].
    rewrite app_assoc. apply gated_snoc; [by apply IH|].
    intros t ->. discriminate.
Qed.

(** Events the invariant does not read, and session keys it does not read,
    may change freely. *)
Lemma Inv_quiet m s fs evs p :
  Inv m → core s = core (session_state m) →
  forallb quiet evs = true →
  Inv (mkMachine s fs (journal m ++ evs) p).
Proof.
  intros [H1 H2 H3 H4 H5 H6 H7 H8] Hcore Hq.
  injection Hcore as E1 E2 E3 E4 E5.
  assert (∀ ev, quiet ev = false → ev ∈ (journal m ++ evs)%list →
                ev ∈ journal m) as Hold.
  { intros ev Hev [Hin|Hin]%elem_of_app; [done|].
    apply (quiet_elem _ _ Hq) in Hin. congruence. }
  split; simpl; rewrite ?E1, ?E2, ?E3, ?E4, ?E5; try done.
  - intros Hne. destruct (H3 Hne) as [? ?].
    split; [done|]. apply elem_of_app. by left.
  - intros t Ht%Hold; [|done]. eauto.
  - intros t Ht%Hold; [|done]. eauto.
  - intros Hp t b Ht%Hold; [|done]. by eapply H7.
  - by apply gated_quiet.
Qed.

Lemma keeps_bind {A B : Type} (c : Script A) (f : A → Script B) :
  keeps c → (∀ a, keeps (f a)) → keeps (c ≫= f).
Proof.
  intros Hc Hf m Hm. specialize (Hc m Hm).
  unfold mbind, script_bind. destruct (c m) as [m' [a|x]]; simpl in *.
  - by apply Hf.
  - done.
Qed.

(** A machine whose [audio_processed] is unset carries no working text, no
    confirmation, and no report call in its journal. *)
Lemma Inv_unprocessed m :
  Inv m → audio_processed (session_state m) = false →
  dream_text (session_state m) = ""
  ∧ analysis_started (session_state m) = false
  ∧ (∀ t, ReportCall t ∉ journal m).
Proof.
  intros Hm Hp.
  assert (dream_text (session_state m) = "") as Ht.
  { destruct (decide (dream_text (session_state m) = "")) as [|Hne]; [done|].
    apply (inv_passed _ Hm) in Hne as [? _]. congruence. }
  assert (analysis_started (session_state m) = false) as Ha.
  { destruct (analysis_started (session_state m)) eqn:E; [|done].
    by destruct (inv_confirmed _ Hm E). }
  split_and!; [done..|].
  intros t Ht'. apply (inv_report_calls _ Hm) in Ht' as [? _]. congruence.
Qed.

(** Once the analysis is confirmed, the transcript is the working text, it
    is not empty, and it has passed moderation. *)
Lemma Inv_confirmed m :
  Inv m → analysis_started (session_state m) = true →
  dream_text (session_state m) = original_dream_text (session_state m)
  ∧ original_dream_text (session_state m) ≠ ""
  ∧ audio_processed (session_state m) = true
  ∧ ModerationVerdict (original_dream_text (session_state m)) false
      ∈ journal m.
Proof.
  intros Hm Ha. pose proof (inv_confirmed _ Hm Ha) as Hne.
  destruct (inv_passed _ Hm Hne) as [Hp Hv].
  destruct (inv_working_text _ Hm) as [|Heq]; [done|].
  rewrite <- Heq. done.
Qed.

Ltac absurd_journal :=
  match goal with
  | Hr : ∀ t, ReportCall t ∉ ?j, H : ReportCall _ ∈ ?j |- _ =>
      by destruct (Hr _ H)
  | Hv : ∀ t b, ModerationVerdict t b ∉ ?j, H : ModerationVerdict _ _ ∈ ?j
    |- _ => by destruct (Hv _ _ H)
  end.

Ltac close_inv :=
  split; simpl; intros; journal_facts; simplify_eq/=;
  repeat match goal with
  | H : sr_flagged _ = _ |- _ => rewrite H in *; try clear H
  end;
  first
    [ done | congruence | absurd_journal
    | by left | by right
    | by (split; [done | set_solver])
    | by (repeat (apply gated_snoc; [|discriminate]))
    | idtac ].

Ltac by_inv :=
  repeat match goal with H : gated _ |- _ => clear H end;
  bools; rewrite ?elem_of_app, ?elem_of_cons, ?elem_of_nil; naive_solver.

Lemma keeps_audio_processing inp : keeps (audio_processing inp).
Proof.
  intros m Hm.
  destruct (audio_processed (session_state m)) eqn:Hp.
  { unfold audio_processing. unfold_script. simpl. rewrite Hp.
    rewrite andb_false_r. by destruct m. }
  destruct (Inv_unprocessed m Hm Hp) as (Ht & Ha & Hr).
  pose proof (inv_fresh _ Hm Hp) as Hv. pose proof (inv_gated _ Hm) as Hg.
  destruct m as [s fs j p]; simpl in *.
  exec; try exact Hm.
  all: close_inv.
Qed.

Lemma keeps_analysis_start inp : keeps (analysis_start inp).
Proof.
  intros m Hm. destruct m as [s fs j p]; simpl in *.
  exec; try exact Hm.
  all: rewrite <- ?app_assoc; simpl.
  all: first
    [ by apply (Inv_quiet (mkMachine s fs j p))
    | pose proof Hm as [I1 I2 I3 I4 I5 I6 I7 I8]; simpl in *;
      clear Hm; close_inv; by_inv ].
Qed.

Lemma keeps_report_generation inp : keeps (report_generation inp).
Proof.
  intros m Hm. destruct m as [s fs j p].
  unfold report_generation. unfold_script. simpl.
  destruct (analysis_started s) eqn:Ha; simpl; [|exact Hm].
  destruct (Inv_confirmed _ Hm Ha) as (Heq & Hne & Hp & Hv); simpl in *.
  destruct (is_Some_b (dream_report s)) eqn:Hr; simpl; [exact Hm|].
  rewrite (proj2 (truthy_str_true _) Hne). simpl.
  destruct Hm as [H1 H2 H3 H4 H5 H6 H7 H8]; simpl in *.
  assert (gated (j ++ [ReportCall (original_dream_text s)])) as Hg.
  { apply gated_snoc; [done|]. by intros ? [= <-]. }
  clear H8.
  destruct (report_gen_generate_report_with_rag _ _); simpl.
  all: split; simpl; intros; try exact Hg; journal_facts; try done.
  all: by_inv.
Qed.

Lemma keeps_results inp : keeps (results inp).
Proof.
  intros m Hm. destruct m as [s fs j p]; simpl in *.
  exec; try exact Hm.
  all: rewrite <- ?app_assoc; simpl.
  all: by apply (Inv_quiet (mkMachine s fs j p)).
Qed.

Lemma keeps_script inp : keeps (script inp).
Proof.
  unfold script.
  apply keeps_bind; [apply keeps_audio_processing|intros _].
  apply keeps_bind; [apply keeps_analysis_start|intros _].
  apply keeps_bind; [apply keeps_report_generation|intros _].
  apply keeps_results.
Qed.

Lemma Inv_new_session fs : Inv (new_session fs).
Proof.
  split; simpl; intros; journal_facts; try done; try (by left).
  apply gated_nil.
Qed.

Lemma Inv_run m inp : Inv m → Inv (run m inp).
Proof. intros Hm. apply keeps_script. by destruct Hm. Qed.

Lemma Inv_runs m inps : Inv m → Inv (runs m inps).
Proof.
  revert m. induction inps as [|inp inps IH]; intros m Hm; simpl; [done|].
  apply IH. by apply Inv_run.
Qed.

Lemma Inv_session fs inps : Inv (runs (new_session fs) inps).
Proof. apply Inv_runs, Inv_new_session. Qed.

(** ** The working text (C10) *)

(** C10: in every machine a session can reach, whatever the widgets and the
    services did, the working text [dream_text] is the empty string or equals
    the transcript [original_dream_text]. *)
Theorem C10_working_text_is_transcript_or_empty :
  ∀ (fs : gmap string bytes) (inps : list Inputs),
    let s := session_state (runs (new_session fs) inps) in
    dream_text s = "" ∨ dream_text s = original_dream_text s.
Proof.
  intros fs inps. exact (inv_working_text _ (Inv_session fs inps)).
Qed.

(** ** The moderation gate (C2) *)

(** C2: along every session, (1) once a moderation verdict flagged a text the
    working text is empty and the report generator has not been and is not
    called; (2) every call of the report generator comes after a verdict that
    passed the text it is called on; (3) that text is the session's working
    text. *)
Theorem C2_flagged_text_never_reaches_report_generator :
  ∀ (fs : gmap string bytes) (inps : list Inputs),
    let m := runs (new_session fs) inps in
    (∀ t, ModerationVerdict t true ∈ journal m →
       dream_text (session_state m) = "" ∧ ∀ t', ReportCall t' ∉ journal m)
    ∧ (∀ l1 t l2, journal m = (l1 ++ ReportCall t :: l2)%list →
         ModerationVerdict t false ∈ l1)
    ∧ (∀ t, ReportCall t ∈ journal m → t = dream_text (session_state m)).
Proof.
  intros fs inps m. pose proof (Inv_session fs inps) as Hm. fold m in Hm.
  split_and!.
  - intros t Ht. pose proof (inv_flagged _ Hm t Ht) as Hempty.
    split; [done|]. intros t' Hcall.
    destruct (inv_report_calls _ Hm t' Hcall) as [Ha _].
    by destruct (inv_confirmed _ Hm Ha).
  - exact (inv_gated _ Hm).
  - intros t Hcall. destruct (inv_report_calls _ Hm t Hcall) as [Ha ->].
    by destruct (Inv_confirmed _ Hm Ha) as [-> _].
Qed.

(** The theorem at a session whose transcript the moderation endpoint
    flags: the user speaks, clicks, waits. *)
Lemma C2_witness :
  let m := runs (new_session ∅) (scenario.confirm_and_wait scenario.strict) in
  dream_text (session_state m) = "" ∧ ∀ t', ReportCall t' ∉ journal m.
Proof.
  intros m.
  apply (proj1 (C2_flagged_text_never_reaches_report_generator
                  ∅ (scenario.confirm_and_wait scenario.strict))
           scenario.forest_dream).
  vm_compute. set_solver.
Defined.

(** ** One report per session (C8) *)

(** A run that starts with a report in the session calls the report
    generator not at all. *)
Lemma run_populated_no_report_call m inp t :
  is_Some_b (dream_report (session_state m)) = true →
  ReportCall t ∉ events_since m (run m inp).
Proof.
  unfold events_since. destruct m as [s fs j p]; simpl. intros Hr.
  destruct (dream_report s) as [r|] eqn:E; [clear Hr|done].
  exec.
  all: rewrite <- ?app_assoc;
    rewrite ?drop_app_length, ?drop_all, ?app_nil_r.
  all: intros Hin; journal_facts; bools; simplify_eq/=.
  all: try congruence.
  all: destruct_and?; rewrite ?E in *; simpl in *; congruence.
Qed.

(** A processed session that holds a report keeps both through a run. *)
Lemma run_populated_stable m inp r :
  audio_processed (session_state m) = true →
  dream_report (session_state m) = Some r →
  audio_processed (session_state (run m inp)) = true
  ∧ dream_report (session_state (run m inp)) = Some r.
Proof.
  destruct m as [s fs j p]; simpl. intros Hp Hr.
  exec.
  all: bools; destruct_and?; rewrite ?Hp, ?Hr in *; simpl in *.
  all: first [done | congruence | by destruct_or?].
Qed.

Lemma events_since_app m1 m2 m3 :
  journal m2 = (journal m1 ++ events_since m1 m2)%list →
  journal m3 = (journal m2 ++ events_since m2 m3)%list →
  events_since m1 m3 = (events_since m1 m2 ++ events_since m2 m3)%list.
Proof.
  intros H12 H23. unfold events_since at 1.
  rewrite H23, H12, <- app_assoc. by rewrite drop_app_length.
Qed.

Lemma runs_populated_stable m inps r :
  audio_processed (session_state m) = true →
  dream_report (session_state m) = Some r →
  dream_report (session_state (runs m inps)) = Some r
  ∧ ∀ t, ReportCall t ∉ events_since m (runs m inps).
Proof.
  revert m. induction inps as [|inp inps IH]; intros m Hp Hr; simpl.
  - split; [done|]. intros t. unfold events_since.
    rewrite drop_all. apply not_elem_of_nil.
  - destruct (run_populated_stable m inp r Hp Hr) as [Hp' Hr'].
    destruct (IH _ Hp' Hr') as [Hfin Hnone]. split; [done|].
    intros t.
    rewrite (events_since_app m (run m inp) _
               (journal_run m inp) (journal_runs _ inps)).
    intros [Hin|Hin]%elem_of_app.
    + revert Hin. apply run_populated_no_report_call. by rewrite Hr.
    + by apply (Hnone t).
Qed.

(** A session that holds a report has processed its audio. *)
Lemma Inv_populated m :
  Inv m → dream_report (session_state m) ≠ None →
  audio_processed (session_state m) = true.
Proof.
  intros Hm Hr. pose proof (inv_report _ Hm Hr) as Ha.
  by destruct (Inv_confirmed _ Hm Ha) as (_ & _ & Hp & _).
Qed.

(** C8: (1) a run that starts while [dream_report] is populated does not
    call the report generator; (2) along every session, once [dream_report]
    is populated it keeps its value through all later runs, and none of them
    calls the report generator. *)
Theorem C8_no_report_call_while_populated :
  (∀ (m : Machine) (inp : Inputs) (t : string),
     is_Some_b (dream_report (session_state m)) = true →
     ReportCall t ∉ events_since m (run m inp))
  ∧ (∀ (fs : gmap string bytes) (inps later : list Inputs) (r : ReportDict),
       let m := runs (new_session fs) inps in
       dream_report (session_state m) = Some r →
       dream_report (session_state (runs m later)) = Some r
       ∧ ∀ t, ReportCall t ∉ events_since m (runs m later)).
Proof.
  split.
  - intros m inp t. apply run_populated_no_report_call.
  - intros fs inps later r m Hr.
    apply runs_populated_stable; [|done].
    apply Inv_populated; [apply Inv_session|]. by rewrite Hr.
Qed.

(** The theorem at the session that reached the nightmare image: the user
    then waits, clicks again and records again. *)
Lemma C8_witness :
  let m := runs (new_session ∅) (scenario.to_nightmare_ready scenario.calm) in
  let later := [scenario.idle scenario.calm;
                scenario.click_analyze scenario.calm;
                scenario.speak scenario.calm scenario.second_recording] in
  dream_report (session_state (runs m later))
    = Some (Report_dict scenario.forest_report)
  ∧ ∀ t, ReportCall t ∉ events_since m (runs m later).
Proof.
  intros m later.
  apply (proj2 C8_no_report_call_while_populated
           ∅ (scenario.to_nightmare_ready scenario.calm) later
           (Report_dict scenario.forest_report)).
  vm_compute. reflexivity.
Defined.

(** ** New audio and the reset (C5) *)

(** An unprocessed session is put back to the defaults before anything
    else is done with the audio. *)
Lemma run_resets_first m inp :
  truthy_audio (audio_input inp) = true →
  audio_processed (session_state m) = false →
  run m inp = run (reset m) inp ∧ exit_of m inp = exit_of (reset m) inp.
Proof.
  destruct m as [s fs j p]; simpl. intros Ha Hp.
  unfold reset. unfold_script. simpl. rewrite Ha, Hp. simpl. done.
Qed.

(** A processed session does not look at the audio widgets. *)
Lemma run_ignores_audio m inp :
  audio_processed (session_state m) = true →
  run m inp = run m (without_audio inp).
Proof.
  destruct m as [s fs j p]; destruct s; simpl. intros ->.
  unfold without_audio. unfold_script. simpl.
  rewrite andb_false_r. reflexivity.
Qed.

Lemma run_processed_no_transcription m inp path :
  audio_processed (session_state m) = true →
  TranscribeCall path ∉ events_since m (run m inp).
Proof.
  unfold events_since. destruct m as [s fs j p]; simpl. intros Hp.
  exec.
  all: rewrite <- ?app_assoc;
    rewrite ?drop_app_length, ?drop_all, ?app_nil_r.
  all: intros Hin; journal_facts; bools; simplify_eq/=.
  all: destruct_and?; congruence.
Qed.

(** After a run that processed audio, every derived key but the transcript
    and the working text holds its default. *)
Lemma run_audio_derived_defaults m inp :
  truthy_audio (audio_input inp) = true →
  audio_processed (session_state m) = false →
  let s' := session_state (run m inp) in
  analysis_started s' = false ∧ dream_report s' = None
  ∧ nightmare_prompt s' = "" ∧ reconstructed_prompt s' = ""
  ∧ transformation_summary s' = "" ∧ keyword_mappings s' = []
  ∧ nightmare_image_url s' = "" ∧ reconstructed_image_url s' = ""
  ∧ nightmare_keywords s' = [].
Proof.
  destruct m as [s fs j p]; simpl. intros Ha Hp.
  unfold_script. simpl. rewrite Ha, Hp. simpl.
  exec; done.
Qed.

(** The guard of line 121 gates the reset and the processing together:
    audio that arrives while [audio_processed] is unset is handled from the
    defaults; audio that arrives while it is set is not looked at; and every
    session that holds a working text or a report has it set. *)
Lemma audio_guard_gates_reset_and_processing :
  ∀ (m : Machine) (inp : Inputs),
    truthy_audio (audio_input inp) = true →
    (audio_processed (session_state m) = false →
       run m inp = run (reset m) inp
       ∧ exit_of m inp = exit_of (reset m) inp
       ∧ analysis_started (session_state (run m inp)) = false
       ∧ dream_report (session_state (run m inp)) = None
       ∧ nightmare_prompt (session_state (run m inp)) = ""
       ∧ reconstructed_prompt (session_state (run m inp)) = ""
       ∧ transformation_summary (session_state (run m inp)) = ""
       ∧ keyword_mappings (session_state (run m inp)) = []
       ∧ nightmare_image_url (session_state (run m inp)) = ""
       ∧ reconstructed_image_url (session_state (run m inp)) = ""
       ∧ nightmare_keywords (session_state (run m inp)) = [])
    ∧ (audio_processed (session_state m) = true →
         run m inp = run m (without_audio inp)
         ∧ ∀ path, TranscribeCall path ∉ events_since m (run m inp))
    ∧ (∀ fs inps, m = runs (new_session fs) inps →
         dream_text (session_state m) ≠ ""
         ∨ dream_report (session_state m) ≠ None →
         audio_processed (session_state m) = true).
Proof.
  intros m inp Ha. split_and!.
  - intros Hp. destruct (run_resets_first m inp Ha Hp) as [-> ->].
    split_and!; try done.
    all: rewrite <- (proj1 (run_resets_first m inp Ha Hp)).
    all: by apply (run_audio_derived_defaults m inp Ha Hp).
  - intros Hp. split; [by apply run_ignores_audio|].
    intros path. by apply run_processed_no_transcription.
  - intros fs inps -> [Ht|Hr].
    + by destruct (inv_passed _ (Inv_session fs inps) Ht).
    + by apply Inv_populated; [apply Inv_session|].
Qed.

(** C5 fails on the code. The session that reached the nightmare image
    receives a second recording: the run leaves the session as it was, with
    its transcript, report, prompt and image, and calls no service, so that
    the recording is not transcribed. The reset the claim asks for would have
    made a difference: from the reset session the same run transcribes the
    recording and ends without report, prompt or image. *)
Theorem C5_new_audio_after_nightmare_is_ignored :
  let m := runs (new_session ∅) (scenario.to_nightmare_ready scenario.calm) in
  let inp := scenario.speak scenario.calm scenario.second_recording in
  audio_input inp = Some scenario.second_recording
  ∧ audio_processed (session_state m) = true
  ∧ session_state (run m inp) = session_state m
  ∧ original_dream_text (session_state (run m inp)) = scenario.forest_dream
  ∧ dream_report (session_state (run m inp))
      = Some (Report_dict scenario.forest_report)
  ∧ nightmare_prompt (session_state (run m inp))
      = "A shadow between black trees"
  ∧ nightmare_image_url (session_state (run m inp))
      = "https://images.example/1"
  ∧ service_calls (events_since m (run m inp)) = []
  ∧ TranscribeCall "/tmp/tmpa1b2c3.wav"
      ∈ events_since (reset m) (run (reset m) inp)
  ∧ dream_report (session_state (run (reset m) inp)) = None
  ∧ nightmare_prompt (session_state (run (reset m) inp)) = ""
  ∧ nightmare_image_url (session_state (run (reset m) inp)) = "".
Proof.
  vm_compute. split_and!; try reflexivity. set_solver.
Qed.

(** ** The temporary audio file (C7) *)

Lemma truthy_wav_name stem : truthy_str (stem ++ ".wav") = true.
Proof. by destruct stem. Qed.

Lemma path_exists_insert fs path data :
  path_exists (<[path:=data]> fs) path = true.
Proof. unfold path_exists. by rewrite lookup_insert_eq. Qed.

(** C7: in every run that processes audio and has written its temporary
    file, the transcription service is called on that file, and when the run
    is over (by [st.rerun()], or by an exception that the transcription or
    the moderation call raised) the file is gone from the scratch directory,
    which is otherwise as before. *)
Theorem C7_temp_file_removed :
  ∀ (m : Machine) (inp : Inputs) (data : bytes),
    audio_input inp = Some data →
    truthy_bytes data = true →
    audio_processed (session_state m) = false →
    temp_create inp = Ret () →
    temp_write inp = Ret () →
    let path := temp_name inp ++ ".wav" in
    TranscribeCall path ∈ events_since m (run m inp)
    ∧ scratch (run m inp) !! path = None
    ∧ (∀ q, q ≠ path → scratch (run m inp) !! q = scratch m !! q)
    ∧ exit_of m inp ≠ Next ().
Proof.
  intros m inp data Hin Hd Hp Hc Hw path. subst path.
  unfold events_since. destruct m as [s fs j p]; simpl in *.
  unfold_script. simpl. rewrite Hin, Hp, Hc, Hw. simpl. rewrite Hd. simpl.
  exec.
  all: try match goal with
       | H : truthy_str _ && path_exists _ _ = false |- _ =>
           by rewrite truthy_wav_name, path_exists_insert in H
       end.
  all: rewrite <- ?app_assoc;
    rewrite ?drop_app_length, ?drop_all, ?app_nil_r.
  all: split_and!; [set_solver|apply lookup_delete_eq| |done].
  all: intros q Hq; by rewrite lookup_delete_ne, lookup_insert_ne.
Qed.

(** The theorem at a run whose moderation call raises: the file is gone
    although the run ended with the exception. *)
Lemma C7_witness :
  let m := new_session {[ "/tmp/kept.txt" := [] ]} in
  let path := "/tmp/tmpa1b2c3.wav" in
  TranscribeCall path ∈ events_since m (run m scenario.interrupted)
  ∧ scratch (run m scenario.interrupted) !! path = None
  ∧ (∀ q, q ≠ path →
       scratch (run m scenario.interrupted) !! q = scratch m !! q)
  ∧ exit_of m scenario.interrupted ≠ Next ().
Proof.
  intros m path.
  exact (C7_temp_file_removed m scenario.interrupted scenario.recording
           eq_refl eq_refl eq_refl eq_refl eq_refl).
Defined.

(** Outside that case: when the write itself raises, no transcription is
    called, [audio_path] was never bound, and the created file stays. *)
Lemma temp_file_kept_when_write_fails m inp data e :
  audio_input inp = Some data →
  truthy_bytes data = true →
  audio_processed (session_state m) = false →
  temp_create inp = Ret () →
  temp_write inp = Raise e →
  events_since m (run m inp) = []
  ∧ scratch (run m inp) !! (temp_name inp ++ ".wav") = Some []
  ∧ exit_of m inp = Stop (Uncaught e).
Proof.
  intros Hin Hd Hp Hc Hw.
  unfold events_since. destruct m as [s fs j p]; simpl in *.
  unfold_script. simpl. rewrite Hin, Hp, Hc, Hw. simpl. rewrite Hd. simpl.
  rewrite drop_all, lookup_insert_eq. done.
Qed.

(** ** The services behind the script *)

(** A run that processes audio with the services of [initialize_services]:
    the transcript is what the endpoint returned or, when it raised, the
    failure text; the text is moderated; the run ends with [st.rerun()]. *)
Lemma run_audio_real w m inp data :
  services inp = initialize_services w →
  audio_input inp = Some data →
  truthy_bytes data = true →
  audio_processed (session_state m) = false →
  temp_create inp = Ret () →
  temp_write inp = Ret () →
  let text :=
    match transcriptions_create w data with
    | Ret t => t
    | Raise e => stt_service.failure_text e
    end in
  let verdict := check_text_safety (moderations_create w) text in
  session_state (run m inp)
    = set_audio_processed true
        (set_dream_text (if sr_flagged verdict then "" else text)
           (set_original_dream_text text session_defaults))
  ∧ events_since m (run m inp)
      = [TranscribeCall (temp_name inp ++ ".wav"); ModerationCall text;
         ModerationVerdict text (sr_flagged verdict);
         if sr_flagged verdict then Shown Error (sr_text verdict)
         else Shown Success ("안전성 검사: " ++ sr_text verdict)]
  ∧ exit_of m inp = Stop Rerun.
Proof.
  intros Hs Hin Hd Hp Hc Hw text verdict.
  unfold events_since. destruct m as [s fs j p]; simpl in *.
  unfold_script. simpl. rewrite Hin, Hp, Hc, Hw, Hs. simpl. rewrite Hd. simpl.
  unfold stt_service.transcribe_audio, stt_service.attempt.
  rewrite lookup_insert_eq. fold text. fold verdict.
  destruct (sr_flagged verdict); simpl.
  all: rewrite truthy_wav_name, path_exists_insert; simpl.
  all: rewrite <- ?app_assoc; rewrite drop_app_length; done.
Qed.

Lemma failure_text_nonempty e : stt_service.failure_text e ≠ "".
Proof. unfold stt_service.failure_text. by destruct (exn_class e). Qed.

(** A run on a processed session shows the transcript. *)
Lemma run_shows_transcript m inp :
  audio_processed (session_state m) = true →
  original_dream_text (session_state m) ≠ "" →
  Shown Info (original_dream_text (session_state m))
    ∈ events_since m (run m inp).
Proof.
  unfold events_since. destruct m as [s fs j p]; simpl. intros Hp Ho.
  apply truthy_str_true in Ho.
  exec.
  all: try (exfalso; rewrite ?Hp, ?Ho in *; simpl in *;
            rewrite ?andb_false_r in *; congruence).
  all: rewrite <- ?app_assoc; rewrite ?drop_app_length; set_solver.
Qed.

(** A click on the confirmation button of a processed session with a
    working text starts the analysis. *)
Lemma run_confirm m inp :
  audio_processed (session_state m) = true →
  original_dream_text (session_state m) ≠ "" →
  dream_text (session_state m) ≠ "" →
  analysis_started (session_state m) = false →
  analyze_clicked inp = true →
  session_state (run m inp) = set_analysis_started true (session_state m).
Proof.
  destruct m as [s fs j p]; simpl. intros Hp Ho Ht Ha Hc.
  apply truthy_str_true in Ho, Ht.
  exec.
  all: try done.
  all: exfalso; rewrite ?Hp, ?Ho, ?Ht, ?Ha, ?Hc in *; simpl in *;
    rewrite ?andb_false_r in *; congruence.
Qed.

(** A run on a confirmed session without a report calls the report
    generator on the transcript. *)
Lemma run_report_call m inp :
  audio_processed (session_state m) = true →
  original_dream_text (session_state m) ≠ "" →
  dream_text (session_state m) ≠ "" →
  analysis_started (session_state m) = true →
  dream_report (session_state m) = None →
  events_since m (run m inp)
    = [Shown Info (original_dream_text (session_state m));
       ReportCall (original_dream_text (session_state m))]
  ∧ match report_gen_generate_report_with_rag (services inp)
            (original_dream_text (session_state m)) with
    | Ret report =>
        session_state (run m inp)
          = set_nightmare_keywords (rd_keywords report)
              (set_dream_report (Some report) (session_state m))
        ∧ exit_of m inp = Stop Rerun
    | Raise e =>
        session_state (run m inp) = session_state m
        ∧ exit_of m inp = Stop (Uncaught e)
    end.
Proof.
  unfold events_since.
  destruct m as [s fs j p]; simpl. intros Hp Ho Ht Ha Hr.
  apply truthy_str_true in Ho, Ht.
  exec.
  all: try (exfalso; rewrite ?Hp, ?Ho, ?Ht, ?Ha, ?Hr in *; simpl in *;
            rewrite ?andb_false_r in *; congruence).
  all: rewrite <- ?app_assoc; rewrite ?drop_app_length; done.
Qed.

Lemma runs_app m l1 l2 : runs m (l1 ++ l2) = runs (runs m l1) l2.
Proof. unfold runs. apply foldl_app. Qed.

Lemma runs_snoc m l inp : runs m (l ++ [inp]) = run (runs m l) inp.
Proof. by rewrite runs_app. Qed.

(** Events stay in the journal. *)
Lemma journal_runs_elem m inps ev :
  ev ∈ journal m → ev ∈ journal (runs m inps).
Proof.
  intros Hin. rewrite journal_runs. apply elem_of_app. by left.
Qed.

Lemma events_since_elem m m' ev :
  journal m' = (journal m ++ events_since m m')%list →
  ev ∈ events_since m m' → ev ∈ journal m'.
Proof. intros -> Hin. apply elem_of_app. by right. Qed.

(** ** A failed transcription (C6) *)

(** C6 as the specification states it fails: the transcription endpoint
    rejects the API key, the failure text passes moderation, the user
    confirms, and the report generator is called on the failure text and its
    report is stored. *)
Lemma C6_counterexample :
  let text :=
    stt_service.failure_text (mkExn AuthenticationError "Error code: 401") in
  let m :=
    runs (new_session ∅) (scenario.confirm_and_wait scenario.locked_out) in
  original_dream_text (session_state m) = text
  ∧ journal m
      = [TranscribeCall "/tmp/tmpa1b2c3.wav"; ModerationCall text;
         ModerationVerdict text false;
         Shown Success "안전성 검사: 안전합니다.";
         Shown Info text; Shown Info text; ReportCall text]
  ∧ dream_report (session_state m)
      = Some (Report_dict scenario.forest_report).
Proof. vm_compute. done. Qed.

(** C6, amended: when the transcription endpoint raises, the failure text
    becomes the transcript, is sent to moderation like any transcript, and is
    the working text unless moderation flags it; the next run shows it; and
    when moderation passed it, a click on the confirmation button starts the
    analysis and the run after that calls the report generator on the
    failure text. *)
Theorem C6_failure_text_is_moderated_like_a_transcript :
  ∀ (w : Providers) (m : Machine) (inp next after : Inputs) (data : bytes)
    (e : Exn),
    services inp = initialize_services w →
    audio_input inp = Some data →
    truthy_bytes data = true →
    audio_processed (session_state m) = false →
    temp_create inp = Ret () →
    temp_write inp = Ret () →
    transcriptions_create w data = Raise e →
    let text := stt_service.failure_text e in
    let verdict := check_text_safety (moderations_create w) text in
    let m1 := run m inp in
    original_dream_text (session_state m1) = text
    ∧ ModerationCall text ∈ events_since m m1
    ∧ dream_text (session_state m1) = (if sr_flagged verdict then "" else text)
    ∧ Shown Info text ∈ events_since m1 (run m1 next)
    ∧ (sr_flagged verdict = false → analyze_clicked next = true →
         let m2 := run m1 next in
         analysis_started (session_state m2) = true
         ∧ ReportCall text ∈ events_since m2 (run m2 after)).
Proof.
  intros w m inp next after data e Hs Hin Hd Hp Hc Hw He text verdict m1.
  destruct (run_audio_real w m inp data Hs Hin Hd Hp Hc Hw)
    as (Hst & Hev & _).
  rewrite He in Hst, Hev. fold text in Hst, Hev. fold verdict in Hst, Hev.
  fold m1 in Hst, Hev.
  assert (text ≠ "") as Hne by apply failure_text_nonempty.
  assert (original_dream_text (session_state m1) = text) as Ho
    by by rewrite Hst.
  assert (audio_processed (session_state m1) = true) as Hp1
    by by rewrite Hst.
  split_and!.
  - done.
  - rewrite Hev. set_solver.
  - by rewrite Hst.
  - rewrite <- Ho. apply run_shows_transcript; [done|]. by rewrite Ho.
  - intros Hpass Hclick m2.
    assert (session_state m2 = set_analysis_started true (session_state m1))
      as Hst2.
    { apply run_confirm; rewrite ?Hst, ?Hpass; done. }
    split; [by rewrite Hst2|].
    destruct (run_report_call m2 after) as [Hcall _];
      rewrite ?Hst2, ?Hst, ?Hpass; try done.
    rewrite Hcall, Hst2, Hst. set_solver.
Qed.

(** The theorem at the run in which the endpoint rejects the API key. *)
Lemma C6_witness :
  let w := scenario.locked_out in
  let text :=
    stt_service.failure_text (mkExn AuthenticationError "Error code: 401") in
  let m1 := run (new_session ∅) (scenario.speak w scenario.recording) in
  let m2 := run m1 (scenario.click_analyze w) in
  original_dream_text (session_state m1) = text
  ∧ ModerationCall text ∈ events_since (new_session ∅) m1
  ∧ dream_text (session_state m1) = text
  ∧ Shown Info text ∈ events_since m1 m2
  ∧ analysis_started (session_state m2) = true
  ∧ ReportCall text ∈ events_since m2 (run m2 (scenario.idle w)).
Proof.
  intros w text m1 m2.
  destruct (C6_failure_text_is_moderated_like_a_transcript
              w (new_session ∅) (scenario.speak w scenario.recording)
              (scenario.click_analyze w) (scenario.idle w) scenario.recording
              (mkExn AuthenticationError "Error code: 401")
              eq_refl eq_refl eq_refl eq_refl eq_refl eq_refl eq_refl)
    as (H1 & H2 & H3 & H4 & H5).
  exact (conj H1 (conj H2 (conj H3 (conj H4 (H5 eq_refl eq_refl))))).
Defined.

(** ** A failing moderation call (C9) *)

Lemma check_text_safety_raise api text e :
  api text = Raise e → sr_flagged (check_text_safety api text) = true.
Proof. intros H. unfold check_text_safety. by rewrite H. Qed.

Lemma check_text_safety_violation text categories :
  sr_flagged
    (check_text_safety (λ _, Ret [mkModerationResult true categories]) text)
  = true.
Proof. done. Qed.

(** A flagging verdict in the journal of a reachable machine: no working
    text, and no call of the report generator. *)
Lemma Inv_flagged_halts m t :
  Inv m → ModerationVerdict t true ∈ journal m →
  dream_text (session_state m) = "" ∧ ∀ t', ReportCall t' ∉ journal m.
Proof.
  intros Hm Ht. pose proof (inv_flagged _ Hm t Ht) as Hempty.
  split; [done|]. intros t' Hcall.
  destruct (inv_report_calls _ Hm t' Hcall) as [Ha _].
  by destruct (inv_confirmed _ Hm Ha).
Qed.

(** C9: (1) whenever the moderation endpoint raises, [check_text_safety]
    returns a result with [flagged] set; (2) in every session, a run that
    processes audio while the endpoint raises leaves the session state that a
    policy violation leaves, with the working text empty, and after it the
    working text stays empty and the report generator is never called. *)
Theorem C9_moderation_error_fails_closed :
  (∀ (api : string → PyResult (list ModerationResult)) (text : string)
     (e : Exn),
     api text = Raise e → sr_flagged (check_text_safety api text) = true)
  ∧ (∀ (w : Providers) (fs : gmap string bytes) (inps later : list Inputs)
       (inp : Inputs) (data : bytes) (categories : list (string * bool)),
       let m := runs (new_session fs) inps in
       services inp = initialize_services w →
       audio_input inp = Some data →
       truthy_bytes data = true →
       audio_processed (session_state m) = false →
       temp_create inp = Ret () →
       temp_write inp = Ret () →
       (∀ text, ∃ e, moderations_create w text = Raise e) →
       let violation :=
         with_services inp
           (initialize_services
              (with_moderations w
                 (λ _, Ret [mkModerationResult true categories]))) in
       session_state (run m inp) = session_state (run m violation)
       ∧ dream_text (session_state (run m inp)) = ""
       ∧ dream_text (session_state (runs (run m inp) later)) = ""
       ∧ ∀ t, ReportCall t ∉ journal (runs (run m inp) later)).
Proof.
  split; [exact check_text_safety_raise|].
  intros w fs inps later inp data categories m Hs Hin Hd Hp Hc Hw Hdown
    violation.
  destruct (run_audio_real w m inp data Hs Hin Hd Hp Hc Hw)
    as (Hst & Hev & _).
  destruct (run_audio_real
              (with_moderations w
                 (λ _, Ret [mkModerationResult true categories]))
              m violation data eq_refl Hin Hd Hp Hc Hw) as (Hst' & _ & _).
  cbn [with_moderations transcriptions_create moderations_create] in Hst'.
  rewrite check_text_safety_violation in Hst'.
  set (text := match transcriptions_create w data with
               | Ret t => t
               | Raise e => stt_service.failure_text e
               end) in *.
  destruct (Hdown text) as [e He].
  rewrite (check_text_safety_raise _ _ _ He) in Hst, Hev.
  assert (ModerationVerdict text true
            ∈ journal (runs (run m inp) later)) as Hflag.
  { apply journal_runs_elem.
    apply (events_since_elem m _ _ (journal_run m inp)).
    rewrite Hev. set_solver. }
  assert (Inv (runs (run m inp) later)) as Hinv.
  { unfold m. rewrite <- runs_snoc, <- runs_app. apply Inv_session. }
  destruct (Inv_flagged_halts _ _ Hinv Hflag) as [Hempty Hnone].
  split_and!; [congruence|by rewrite Hst|done|done].
Qed.

(** The theorem at a session whose moderation endpoint cannot be reached:
    the user speaks, then confirms and waits in vain. *)
Lemma C9_witness :
  let w := scenario.unreachable in
  let inp := scenario.speak w scenario.recording in
  let later := [scenario.click_analyze w; scenario.idle w] in
  let m1 := run (new_session ∅) inp in
  sr_flagged
    (check_text_safety (moderations_create w) scenario.forest_dream) = true
  ∧ session_state m1
      = session_state
          (run (new_session ∅)
             (scenario.speak scenario.strict scenario.recording))
  ∧ dream_text (session_state m1) = ""
  ∧ dream_text (session_state (runs m1 later)) = ""
  ∧ ∀ t, ReportCall t ∉ journal (runs m1 later).
Proof.
  intros w inp later m1. split.
  - exact (proj1 C9_moderation_error_fails_closed
             (moderations_create w) scenario.forest_dream
             (mkExn APIConnectionError "Connection error.") eq_refl).
  - exact (proj2 C9_moderation_error_fails_closed
             w ∅ [] later inp scenario.recording
             [("violence", true); ("hate", false)]
             eq_refl eq_refl eq_refl eq_refl eq_refl eq_refl
             (λ _, ex_intro _ (mkExn APIConnectionError "Connection error.")
                     eq_refl)).
Defined.

(** ** A failed report generation (C4) *)

(** C4 as the specification states it fails: the report parser rejects the
    completion, yet [generate_report_with_rag] returns (it raises nothing),
    the session stores the returned fallback as its report, and
    [analysis_started] stays set. *)
Lemma C4_counterexample :
  let e :=
    mkExn OutputParserException
      "Failed to parse Report from completion {report}" in
  let m :=
    runs (new_session ∅) (scenario.confirm_and_wait scenario.unparsable) in
  generate_report_with_rag (report_collaborators scenario.unparsable)
    scenario.forest_dream = Ret (error_report e)
  ∧ dream_report (session_state m) = Some (error_report e)
  ∧ analysis_started (session_state m) = true.
Proof. vm_compute. done. Qed.

(** C4, amended: in every session whose analysis is confirmed and that has
    no report yet, when the chain of the report generator raises (the
    retriever, the model or the schema validation), [generate_report_with_rag]
    returns the fallback report (no emotions, no keywords, the error text as
    summary); the run called it once, stores the fallback as [dream_report],
    leaves [analysis_started] set and ends with [st.rerun()]; no later run
    calls the report generator again. *)
Theorem C4_failed_generation_stores_fallback_report :
  ∀ (w : Providers) (fs : gmap string bytes) (inps later : list Inputs)
    (inp : Inputs) (retrieve : string → PyResult (list Document)) (e : Exn),
    let m := runs (new_session fs) inps in
    let text := original_dream_text (session_state m) in
    services inp = initialize_services w →
    retriever (report_collaborators w) = Some retrieve →
    chain_invoke (report_collaborators w) retrieve text = Raise e →
    analysis_started (session_state m) = true →
    dream_report (session_state m) = None →
    generate_report_with_rag (report_collaborators w) text
      = Ret (error_report e)
    ∧ events_since m (run m inp) = [Shown Info text; ReportCall text]
    ∧ dream_report (session_state (run m inp)) = Some (error_report e)
    ∧ analysis_started (session_state (run m inp)) = true
    ∧ exit_of m inp = Stop Rerun
    ∧ ∀ t, ReportCall t ∉ events_since (run m inp) (runs (run m inp) later).
Proof.
  intros w fs inps later inp retrieve e m text Hs Hret He Ha Hr.
  assert (generate_report_with_rag (report_collaborators w) text
          = Ret (error_report e)) as Hgen.
  { unfold generate_report_with_rag. by rewrite Hret, He. }
  destruct (Inv_confirmed m (Inv_session fs inps) Ha)
    as (Heq & Hne & Hp & _).
  destruct (run_report_call m inp Hp Hne) as [Hev Hcall];
    [by rewrite Heq|done|done|].
  rewrite Hs in Hcall. simpl in Hcall. fold text in Hcall.
  rewrite Hgen in Hcall. destruct Hcall as [Hst Hexit].
  split_and!; [done|done|by rewrite Hst|by rewrite Hst|done|].
  apply (runs_populated_stable _ later (error_report e));
    by rewrite Hst.
Qed.

(** The theorem at the session whose report parser rejects the completion:
    the user has spoken and confirmed, and the next run generates. *)
Lemma C4_witness :
  let w := scenario.unparsable in
  let e :=
    mkExn OutputParserException
      "Failed to parse Report from completion {report}" in
  let m :=
    runs (new_session ∅)
      [scenario.speak w scenario.recording; scenario.click_analyze w] in
  let text := original_dream_text (session_state m) in
  let later := [scenario.click_analyze w; scenario.idle w] in
  text = scenario.forest_dream
  ∧ generate_report_with_rag (report_collaborators w) text
      = Ret (error_report e)
  ∧ events_since m (run m (scenario.idle w))
      = [Shown Info text; ReportCall text]
  ∧ dream_report (session_state (run m (scenario.idle w)))
      = Some (error_report e)
  ∧ analysis_started (session_state (run m (scenario.idle w))) = true
  ∧ exit_of m (scenario.idle w) = Stop Rerun
  ∧ ∀ t, ReportCall t
         ∉ events_since (run m (scenario.idle w))
             (runs (run m (scenario.idle w)) later).
Proof.
  intros w e m text later. split; [vm_compute; reflexivity|].
  apply (C4_failed_generation_stores_fallback_report
           w ∅ [scenario.speak w scenario.recording; scenario.click_analyze w]
           later (scenario.idle w)
           (λ _, Ret [mkDocument "Forests stand for the unknown."]) e).
  - reflexivity.
  - reflexivity.
  - vm_compute. reflexivity.
  - vm_compute. reflexivity.
  - vm_compute. reflexivity.
Defined.

(** ** The report schema (C3) *)

(** C3 as the specification states it fails: the parser accepts a report
    whose only emotion has no label and the score 1.5 and which has no
    keyword; [generate_report_with_rag] returns it as it is. *)
Lemma C3_counterexample :
  let d :=
    mkReportDict [mkEmotionDict "" 1.5%float] [] "Nothing stands out." in
  generate_report_with_rag (report_collaborators scenario.careless)
    scenario.forest_dream = Ret d
  ∧ ¬ report_contract d.
Proof.
  split; [reflexivity|].
  intros [Hscores _]. apply Forall_cons in Hscores as [[Hscore _] _].
  vm_compute in Hscore. discriminate.
Qed.

(** C3, amended: a dictionary that [generate_report_with_rag] returns is
    either the report the parser validated, converted field by field (every
    emotion keeps its label and its score, in order; the keywords and the
    summary are kept), or, when the chain raised, the fallback report, which
    has no emotions and no keywords. Nothing bounds the scores, and nothing
    asks for a label or a keyword. *)
Theorem C3_returned_report_is_the_parsed_one :
  ∀ (c : report_generator_service.Collaborators) (dream_text : string)
    (d : ReportDict),
    generate_report_with_rag c dream_text = Ret d →
    ∃ retrieve, retriever c = Some retrieve
      ∧ ((∃ r, chain_invoke c retrieve dream_text = Ret r
               ∧ rd_emotions d
                   = map (λ emo, mkEmotionDict (emotion emo) (score emo))
                       (emotions r)
               ∧ rd_keywords d = keywords r
               ∧ rd_analysis_summary d = analysis_summary r)
         ∨ (∃ e, chain_invoke c retrieve dream_text = Raise e
                 ∧ rd_emotions d = [] ∧ rd_keywords d = []
                 ∧ rd_analysis_summary d
                     = "RAG 리포트 생성 중 오류가 발생했습니다: " ++ exn_str e)).
Proof.
  intros c dream_text d. unfold generate_report_with_rag.
  destruct (retriever c) as [retrieve|]; [|discriminate].
  intros H. exists retrieve. split; [done|].
  destruct (chain_invoke c retrieve dream_text) as [r|e]; simplify_eq.
  - left. by exists r.
  - right. by exists e.
Qed.

(** The theorem at the providers that answer with the forest report. *)
Lemma C3_witness :
  ∃ retrieve,
    retriever (report_collaborators scenario.calm) = Some retrieve
    ∧ ((∃ r, chain_invoke (report_collaborators scenario.calm) retrieve
               scenario.forest_dream = Ret r
             ∧ [mkEmotionDict "fear" 0.75%float]
                 = map (λ emo, mkEmotionDict (emotion emo) (score emo))
                     (emotions r)
             ∧ ["forest"; "shadow"] = keywords r
             ∧ "Being chased stands for an avoided worry."
                 = analysis_summary r)
       ∨ (∃ e, chain_invoke (report_collaborators scenario.calm) retrieve
                 scenario.forest_dream = Raise e
               ∧ [mkEmotionDict "fear" 0.75%float] = []
               ∧ ["forest"; "shadow"] = []
               ∧ "Being chased stands for an avoided worry."
                   = "RAG 리포트 생성 중 오류가 발생했습니다: " ++ exn_str e)).
Proof.
  exact (C3_returned_report_is_the_parsed_one
           (report_collaborators scenario.calm) scenario.forest_dream
           (Report_dict scenario.forest_report) eq_refl).
Defined.

(** ** The reconstruction schema (C1) *)

(** C1 as the specification states it fails: the parser accepts a single
    mapping of "forest" onto "forest", and
    [create_reconstructed_prompt_and_analysis] returns it. *)
Lemma C1_counterexample :
  let l := [dream_analyzer_service.mkMappingDict "forest" "forest"] in
  dream_analyzer_service.create_reconstructed_prompt_and_analysis
    scenario.echo scenario.forest_dream (Report_dict scenario.forest_report)
  = Ret ("A forest", "Nothing was changed.", l)
  ∧ ¬ (3 ≤ List.length l ≤ 5)%nat
  ∧ ¬ Forall (λ m, dream_analyzer_service.md_transformed m
                   ≠ dream_analyzer_service.md_original m) l
  ∧ ¬ mappings_contract l.
Proof.
  split_and!.
  - reflexivity.
  - simpl. lia.
  - intros H. by apply Forall_cons in H as [H _].
  - intros [H _]. simpl in H. lia.
Qed.

(** C1, amended: the mappings that
    [create_reconstructed_prompt_and_analysis] returns are the mappings of
    the output the parser validated, converted one by one: as many, in the
    same order, each with the same original and transformed strings; the
    prompt and the summary are those of that output. Nothing bounds their
    number, and nothing compares transformed with original. *)
Theorem C1_returned_mappings_are_the_parsed_ones :
  ∀ (c : dream_analyzer_service.Collaborators) (dream_text : string)
    (dream_report : ReportDict) (prompt summary : string)
    (mappings : list dream_analyzer_service.MappingDict),
    dream_analyzer_service.create_reconstructed_prompt_and_analysis
      c dream_text dream_report = Ret (prompt, summary, mappings) →
    ∃ request raw response,
      dream_analyzer_service.reconstruction_llm c request = Ret raw
      ∧ dream_analyzer_service.json_parser c raw = Ret response
      ∧ prompt = dream_analyzer_service.reconstructed_prompt response
      ∧ summary = dream_analyzer_service.transformation_summary response
      ∧ List.length mappings
          = List.length (dream_analyzer_service.keyword_mappings response)
      ∧ ∀ i k,
          dream_analyzer_service.keyword_mappings response !! i = Some k →
          mappings !! i
            = Some (dream_analyzer_service.mkMappingDict
                      (dream_analyzer_service.original k)
                      (dream_analyzer_service.transformed k)).
Proof.
  intros c dream_text dream_report prompt summary mappings.
  unfold dream_analyzer_service.create_reconstructed_prompt_and_analysis.
  unfold mbind, pyresult_bind, mret, pyresult_ret.
  destruct (dream_analyzer_service.emotion_summary_list _) as [l|];
    [|discriminate].
  match goal with
  | |- context [dream_analyzer_service.reconstruction_llm c ?r] =>
      set (request := r)
  end.
  destruct (dream_analyzer_service.reconstruction_llm c request) as [raw|]
    eqn:Hraw; [|discriminate].
  destruct (dream_analyzer_service.json_parser c raw) as [response|]
    eqn:Hresponse; [|discriminate].
  intros [= <- <- <-]. exists request, raw, response.
  split_and!; try done.
  - by rewrite length_map.
  - intros i k Hk. by rewrite list_lookup_fmap, Hk.
Qed.

(** The theorem at the providers that answer with three mappings. *)
Lemma C1_witness :
  ∃ request raw response,
    dream_analyzer_service.reconstruction_llm
      (analyzer_collaborators scenario.calm) request = Ret raw
    ∧ dream_analyzer_service.json_parser
        (analyzer_collaborators scenario.calm) raw = Ret response
    ∧ "A sunlit forest path with a friendly guide"
        = dream_analyzer_service.reconstructed_prompt response
    ∧ "The forest became a place of rest."
        = dream_analyzer_service.transformation_summary response
    ∧ 3%nat = List.length (dream_analyzer_service.keyword_mappings response)
    ∧ ∀ i k,
        dream_analyzer_service.keyword_mappings response !! i = Some k →
        [dream_analyzer_service.mkMappingDict "forest" "sunlit grove";
         dream_analyzer_service.mkMappingDict "shadow" "friendly guide";
         dream_analyzer_service.mkMappingDict "chase" "walk"] !! i
          = Some (dream_analyzer_service.mkMappingDict
                    (dream_analyzer_service.original k)
                    (dream_analyzer_service.transformed k)).
Proof.
  exact (C1_returned_mappings_are_the_parsed_ones
           (analyzer_collaborators scenario.calm) scenario.forest_dream
           (Report_dict scenario.forest_report) _ _ _ eq_refl).
Defined.

(** * Further properties: the services *)

(** ** services/moderation_service.py *)

(** X1: [check_text_safety] lets a text pass only on an explicit verdict:
    its result is unflagged exactly when the endpoint returned a non-empty
    list of results whose first entry is not flagged. An exception and an
    empty list of results both give a flagged result. *)
Theorem X1_pass_needs_an_unflagged_first_result :
  ∀ (api : string → PyResult (list ModerationResult)) (text : string),
    sr_flagged (check_text_safety api text) = false
    ↔ ∃ r rest, api text = Ret (r :: rest) ∧ flagged r = false.
Proof.
  intros api text. unfold check_text_safety, mbind, pyresult_bind.
  destruct (api text) as [[|r rest]|e]; simpl.
  - split; [discriminate|]. by intros (? & ? & ? & ?).
  - destruct (flagged r) eqn:Hf; simpl.
    + split; [discriminate|]. intros (r' & rest' & [= <- <-] & ?). congruence.
    + split; [|done]. intros _. by exists r, rest.
  - split; [discriminate|]. by intros (? & ? & ? & ?).
Qed.

Lemma X1_witness :
  ∃ r rest,
    moderations_create scenario.calm scenario.forest_dream = Ret (r :: rest)
    ∧ flagged r = false.
Proof.
  exact (proj1 (X1_pass_needs_an_unflagged_first_result
                  (moderations_create scenario.calm) scenario.forest_dream)
           eq_refl).
Defined.

(** X2: for a flagged first result, the message names exactly the categories
    whose flag is set, in the order of the result, joined by ", ", and the
    details are that result. *)
Theorem X2_flagged_message_names_the_set_categories :
  ∀ (api : string → PyResult (list ModerationResult)) (text : string)
    (r : ModerationResult) (rest : list ModerationResult),
    api text = Ret (r :: rest) →
    flagged r = true →
    sr_text (check_text_safety api text)
      = "입력된 내용이 안전 정책을 위반할 수 있습니다: "
          ++ String.concat ", " (flagged_categories r)
    ∧ sr_details (check_text_safety api text) = ModelDump r
    ∧ (∀ c, c ∈ flagged_categories r ↔ (c, true) ∈ categories r)
    ∧ flagged_categories r
        = (filter (λ cf, snd cf = true) (categories r)).*1.
Proof.
  intros api text r rest Hapi Hf.
  unfold check_text_safety, mbind, pyresult_bind. rewrite Hapi. simpl.
  rewrite Hf. simpl. split_and!; try done.
  intros c. unfold flagged_categories. rewrite list_elem_of_fmap. split.
  - intros ([c' b] & -> & [Hb Hin]%list_elem_of_filter). simpl in *.
    by subst b.
  - intros Hin. exists (c, true). split; [done|].
    by apply list_elem_of_filter.
Qed.

Lemma X2_witness :
  let r := mkModerationResult true [("violence", true); ("hate", false)] in
  sr_text (check_text_safety (moderations_create scenario.strict) "x")
    = "입력된 내용이 안전 정책을 위반할 수 있습니다: "
        ++ String.concat ", " (flagged_categories r)
  ∧ sr_details (check_text_safety (moderations_create scenario.strict) "x")
      = ModelDump r
  ∧ (∀ c, c ∈ flagged_categories r ↔ (c, true) ∈ categories r)
  ∧ flagged_categories r
      = (filter (λ cf, snd cf = true) (categories r)).*1.
Proof.
  intros r.
  exact (X2_flagged_message_names_the_set_categories
           (moderations_create scenario.strict) "x" r [] eq_refl eq_refl).
Defined.

(** ** services/stt_service.py *)

(** X3: two exceptions that [transcribe_audio] turns into the same text are
    handled by the same [except] clause: a missing file, an invalid key, an
    exhausted quota, a lost connection and an unknown error can be told apart
    by the message alone. *)
Theorem X3_failure_texts_tell_the_handlers_apart :
  ∀ e1 e2 : Exn,
    stt_service.failure_text e1 = stt_service.failure_text e2 →
    stt_service.handler_of e1 = stt_service.handler_of e2.
Proof.
  intros [c1 s1] [c2 s2].
  unfold stt_service.failure_text, stt_service.handler_of. simpl.
  destruct c1, c2; simpl; intros H; first [reflexivity | discriminate H].
Qed.

Lemma X3_witness :
  stt_service.handler_of (mkExn AuthenticationError "401")
  = stt_service.handler_of (mkExn AuthenticationError "Error code: 401").
Proof.
  exact (X3_failure_texts_tell_the_handlers_apart
           (mkExn AuthenticationError "401")
           (mkExn AuthenticationError "Error code: 401") eq_refl).
Defined.

(** X4: on a file that exists, [transcribe_audio] and
    [transcribe_from_bytes] on its content return the same text exactly when
    the endpoint returned, or raised an invalid key, an exhausted quota or a
    lost connection; on every other exception their messages differ. *)
Theorem X4_path_and_bytes_transcription_agree :
  ∀ (api : bytes → PyResult string) (fs : gmap string bytes)
    (path file_name : string) (data : bytes),
    fs !! path = Some data →
    stt_service.transcribe_audio api fs path
      = stt_service.transcribe_from_bytes api data file_name
    ↔ match api data with
      | Ret _ => True
      | Raise e =>
          stt_service.handler_of e = stt_service.AuthInvalid
          ∨ stt_service.handler_of e = stt_service.RateLimited
          ∨ stt_service.handler_of e = stt_service.ConnectionFailed
      end.
Proof.
  intros api fs path file_name data Hfs.
  unfold stt_service.transcribe_audio, stt_service.attempt,
    stt_service.transcribe_from_bytes.
  rewrite Hfs. destruct (api data) as [t|[c s]]; [done|].
  unfold stt_service.failure_text, stt_service.bytes_failure_text,
    stt_service.handler_of. simpl.
  destruct c; simpl; split; intros H;
    first [ discriminate H | by auto | by destruct H as [H|[H|H]] ].
Qed.

Lemma X4_witness :
  stt_service.transcribe_audio
    (transcriptions_create scenario.locked_out)
    {[ "/tmp/a.wav" := scenario.recording ]} "/tmp/a.wav"
  = stt_service.transcribe_from_bytes
      (transcriptions_create scenario.locked_out) scenario.recording
      "audio.wav".
Proof.
  apply (X4_path_and_bytes_transcription_agree
           (transcriptions_create scenario.locked_out)
           {[ "/tmp/a.wav" := scenario.recording ]} "/tmp/a.wav" "audio.wav"
           scenario.recording).
  - vm_compute. reflexivity.
  - left. reflexivity.
Defined.

(** ** services/report_generator_service.py *)

(** X5: [generate_report_with_rag] raises exactly when the service has no
    retriever, and then it is the [ValueError] of its first lines; with a
    retriever every failure of the retrieval, of the model or of the parser
    is caught. *)
Theorem X5_report_generator_raises_only_without_retriever :
  ∀ (c : report_generator_service.Collaborators) (dream_text : string)
    (e : Exn),
    generate_report_with_rag c dream_text = Raise e
    ↔ retriever c = None
      ∧ e = mkExn ValueError
              "RAG 리포트를 생성하려면 retriever 객체가 필요합니다.".
Proof.
  intros c dream_text e. unfold generate_report_with_rag.
  destruct (retriever c) as [retrieve|].
  - destruct (chain_invoke c retrieve dream_text); split;
      first [discriminate | by intros [? _]].
  - split; [by intros [= <-]|by intros [_ ->]].
Qed.

Lemma X5_witness :
  retriever (mkCollaborators None (λ _ _, Ret "") (λ _, Ret scenario.forest_report))
    = None
  ∧ mkExn ValueError "RAG 리포트를 생성하려면 retriever 객체가 필요합니다."
    = mkExn ValueError "RAG 리포트를 생성하려면 retriever 객체가 필요합니다.".
Proof.
  exact (proj1 (X5_report_generator_raises_only_without_retriever
                  (mkCollaborators None (λ _ _, Ret "")
                     (λ _, Ret scenario.forest_report))
                  scenario.forest_dream _) eq_refl).
Defined.

Lemma format_docs_cons d docs :
  _format_docs (d :: docs)
  = match docs with
    | [] => page_content d
    | _ :: _ => page_content d ++ (newline ++ newline) ++ _format_docs docs
    end.
Proof. unfold _format_docs. simpl. by destruct docs. Qed.

Lemma string_app_assoc (a b c : string) : (a ++ b) ++ c = a ++ b ++ c.
Proof.
  induction a as [|x a IH]; [done|].
  change (String x ((a ++ b) ++ c) = String x (a ++ b ++ c)). by rewrite IH.
Qed.

Lemma string_app_empty_r (a : string) : a ++ "" = a.
Proof.
  induction a as [|x a IH]; [done|].
  change (String x (a ++ "") = String x a). by rewrite IH.
Qed.

(** X6: the context handed to the model keeps every retrieved passage whole:
    each passage occurs in it, and the passages come in the order retrieved,
    separated by one empty line; without passages the context is empty. *)
Theorem X6_context_keeps_every_passage :
  _format_docs [] = ""
  ∧ (∀ d, _format_docs [d] = page_content d)
  ∧ (∀ docs more,
       docs ≠ [] → more ≠ [] →
       _format_docs (docs ++ more)
       = _format_docs docs ++ (newline ++ newline) ++ _format_docs more)
  ∧ (∀ docs d,
       d ∈ docs →
       ∃ before after,
         _format_docs docs = before ++ page_content d ++ after).
Proof.
  split_and!; [done|done| |].
  - induction docs as [|d docs IH]; intros more Hd Hm; [done|].
    destruct docs as [|d' docs].
    + destruct more as [|m more]; [done|].
      change ([d] ++ m :: more)%list with (d :: m :: more).
      by rewrite (format_docs_cons d (m :: more)).
    + change ((d :: d' :: docs) ++ more)%list
        with (d :: ((d' :: docs) ++ more))%list.
      rewrite (format_docs_cons d ((d' :: docs) ++ more)).
      rewrite (IH more) by done.
      rewrite (format_docs_cons d (d' :: docs)). simpl.
      by rewrite !string_app_assoc.
  - induction docs as [|d0 docs IH]; intros d Hin.
    + by apply elem_of_nil in Hin.
    + rewrite format_docs_cons.
      apply elem_of_cons in Hin as [->|Hin].
      * exists "". destruct docs; simpl.
        -- exists "". by rewrite string_app_empty_r.
        -- by eexists.
      * destruct (IH d Hin) as (before & after & Heq).
        destruct docs; [by apply elem_of_nil in Hin|].
        exists (page_content d0 ++ (newline ++ newline) ++ before), after.
        rewrite Heq. by rewrite !string_app_assoc.
Qed.

Lemma X6_witness :
  let a := mkDocument "Forests stand for the unknown." in
  let b := mkDocument "Being chased is avoidance." in
  _format_docs ([a] ++ [b])
  = _format_docs [a] ++ (newline ++ newline) ++ _format_docs [b]
  ∧ ∃ before after,
      _format_docs [a; b] = before ++ page_content b ++ after.
Proof.
  intros a b. split.
  - by apply (proj1 (proj2 (proj2 X6_context_keeps_every_passage)) [a] [b]).
  - apply (proj2 (proj2 (proj2 X6_context_keeps_every_passage)) [a; b] b).
    set_solver.
Defined.

(** X7: with no passage retrieved the report generator goes on: the model is
    called with the empty context, and what it answers is parsed and returned
    as for any other context. *)
Theorem X7_report_without_passages :
  ∀ (c : report_generator_service.Collaborators)
    (retrieve : string → PyResult (list Document)) (dream_text raw : string)
    (r : Report),
    retriever c = Some retrieve →
    retrieve dream_text = Ret [] →
    llm c "" dream_text = Ret raw →
    parser c raw = Ret r →
    generate_report_with_rag c dream_text = Ret (Report_dict r).
Proof.
  intros c retrieve dream_text raw r Hret Hdocs Hllm Hparse.
  unfold generate_report_with_rag, chain_invoke, mbind, pyresult_bind.
  rewrite Hret, Hdocs. change (_format_docs []) with "".
  by rewrite Hllm, Hparse.
Qed.

Lemma X7_witness :
  generate_report_with_rag
    (mkCollaborators (Some (λ _, Ret [])) (λ _ _, Ret "{report}")
       (λ _, Ret scenario.forest_report))
    scenario.forest_dream
  = Ret (Report_dict scenario.forest_report).
Proof.
  exact (X7_report_without_passages
           (mkCollaborators (Some (λ _, Ret [])) (λ _ _, Ret "{report}")
              (λ _, Ret scenario.forest_report))
           (λ _, Ret []) scenario.forest_dream "{report}"
           scenario.forest_report eq_refl eq_refl eq_refl eq_refl).
Defined.

(** ** services/dream_analyzer_service.py *)

Lemma int_defined_finite x :
  dream_analyzer_service.int_defined x = Ret () ↔ is_finite x = true.
Proof.
  unfold dream_analyzer_service.int_defined, is_finite.
  destruct (is_nan x), (is_infinity x); simpl; split; congruence.
Qed.

Lemma emotion_summary_list_defined l :
  percentages_defined l = true →
  dream_analyzer_service.emotion_summary_list l = Ret l.
Proof.
  induction l as [|emo l IH]; [done|]. simpl.
  intros [Hemo Hl]%andb_true_iff.
  apply int_defined_finite in Hemo.
  unfold mbind, pyresult_bind. rewrite Hemo. by rewrite (IH Hl).
Qed.

Lemma emotion_summary_list_undefined l :
  percentages_defined l = false →
  ∃ e, dream_analyzer_service.emotion_summary_list l = Raise e
       ∧ (exn_class e = ValueError ∨ exn_class e = OverflowError).
Proof.
  induction l as [|emo l IH]; [done|]. simpl.
  intros [Hemo|Hl]%andb_false_iff; unfold mbind, pyresult_bind.
  - unfold dream_analyzer_service.int_defined, is_finite in *.
    destruct (is_nan _); [eexists; split; [done|by left]|].
    destruct (is_infinity _); [eexists; split; [done|by right]|done].
  - destruct (dream_analyzer_service.int_defined _) as [|e] eqn:Hi.
    + destruct (IH Hl) as (e & -> & He). by exists e.
    + exists e. split; [done|].
      unfold dream_analyzer_service.int_defined in Hi.
      destruct (is_nan _); [injection Hi as <-; by left|].
      destruct (is_infinity _); [injection Hi as <-; by right|done].
Qed.

Lemma brace_free_app (a b : string) :
  dream_analyzer_service.brace_free (a ++ b)
  = dream_analyzer_service.brace_free a && dream_analyzer_service.brace_free b.
Proof.
  induction a as [|x a IH]; [done|].
  change (dream_analyzer_service.brace_free (String x (a ++ b))
          = dream_analyzer_service.brace_free (String x a)
            && dream_analyzer_service.brace_free b).
  simpl. rewrite IH. by rewrite !andb_assoc.
Qed.

Lemma brace_free_concat (sep : string) (l : list string) :
  dream_analyzer_service.brace_free sep = true →
  forallb dream_analyzer_service.brace_free l = true →
  dream_analyzer_service.brace_free (String.concat sep l) = true.
Proof.
  intros Hsep. induction l as [|x l IH]; [done|].
  intros [Hx Hl]%andb_true_iff. destruct l as [|y l]; [done|].
  change (String.concat sep (x :: y :: l))
    with (x ++ sep ++ String.concat sep (y :: l)).
  rewrite !brace_free_app, Hx, Hsep. by rewrite IH.
Qed.

Lemma brace_free_pretty_N_go (x : N) (s : string) :
  dream_analyzer_service.brace_free s = true →
  dream_analyzer_service.brace_free (pretty_N_go x s) = true.
Proof.
  revert s. induction (N.lt_wf_0 x) as [x _ IH]; intros s Hs.
  assert (x = 0 ∨ 0 < x)%N as [->|?] by lia.
  - by rewrite pretty_N_go_0.
  - rewrite pretty_N_go_step by done. apply IH.
    { by apply N.div_lt. }
    simpl. rewrite Hs. unfold pretty_N_char. by repeat case_match.
Qed.

Lemma brace_free_pretty_Z (z : Z) :
  dream_analyzer_service.brace_free (pretty z) = true.
Proof.
  destruct z as [|p|p]; [done| |].
  - unfold pretty, pretty_Z, pretty, pretty_positive, pretty, pretty_N.
    case_decide; [done|]. by apply brace_free_pretty_N_go.
  - unfold pretty, pretty_Z.
    change ("-" +:+ pretty p) with (String "-" (pretty p)). simpl.
    unfold pretty, pretty_positive, pretty, pretty_N.
    case_decide; [done|]. by apply brace_free_pretty_N_go.
Qed.

Lemma brace_free_emotions_info (l : list EmotionDict) :
  forallb (λ emo, dream_analyzer_service.brace_free (ed_emotion emo)) l = true →
  dream_analyzer_service.brace_free
    (dream_analyzer_service.emotions_info "No specific emotions detected." l)
  = true.
Proof.
  intros Hl. destruct l as [|emo l]; [done|].
  unfold dream_analyzer_service.emotions_info.
  apply brace_free_concat; [done|].
  induction (emo :: l) as [|e l' IH]; [done|].
  apply andb_true_iff in Hl as [He Hl]. simpl.
  rewrite (IH Hl), andb_true_r.
  unfold dream_analyzer_service.emotion_text.
  rewrite !brace_free_app, He, brace_free_pretty_Z. done.
Qed.

Lemma brace_free_system_prompt (dream_text info emotions : string) :
  dream_analyzer_service.brace_free
    (dream_analyzer_service.nightmare_system_prompt dream_text info emotions)
  = dream_analyzer_service.brace_free dream_text
    && dream_analyzer_service.brace_free info
    && dream_analyzer_service.brace_free emotions.
Proof.
  unfold dream_analyzer_service.nightmare_system_prompt.
  rewrite !brace_free_app.
  repeat match goal with
  | |- context [dream_analyzer_service.brace_free (String ?c ?rest)] =>
      change (dream_analyzer_service.brace_free (String c rest)) with true
  end.
  simpl. by rewrite !andb_true_r, !andb_assoc.
Qed.

(** X8: when the dream text, the keywords and the emotion labels hold no
    brace, [create_nightmare_prompt] returns a prompt exactly when every
    percentage [score * 100] has an integer value and the chat model answers
    the system text, and the prompt is that answer. The system text is the
    instructions with the dream text, the keywords joined by ", " (or the
    sentence that says there are none) and the emotions as
    [label: percentage%] joined by "; " spliced in. *)
Theorem X8_nightmare_prompt_of_brace_free_texts :
  ∀ (c : dream_analyzer_service.Collaborators) (dream_text prompt : string)
    (dream_report : ReportDict),
    dream_analyzer_service.brace_free dream_text = true →
    forallb dream_analyzer_service.brace_free (rd_keywords dream_report)
      = true →
    forallb (λ emo, dream_analyzer_service.brace_free (ed_emotion emo))
      (rd_emotions dream_report) = true →
    dream_analyzer_service.create_nightmare_prompt c dream_text dream_report
      = Ret prompt
    ↔ percentages_defined (rd_emotions dream_report) = true
      ∧ dream_analyzer_service.nightmare_llm c
          (dream_analyzer_service.nightmare_system_prompt dream_text
             (match rd_keywords dream_report with
              | [] => "No specific keywords provided."
              | _ :: _ => String.concat ", " (rd_keywords dream_report)
              end)
             (match rd_emotions dream_report with
              | [] => "No specific emotions detected."
              | _ :: _ =>
                  String.concat "; "
                    (map dream_analyzer_service.emotion_text
                       (rd_emotions dream_report))
              end)) = Ret prompt.
Proof.
  intros c dream_text prompt dream_report Ht Hk He.
  unfold dream_analyzer_service.create_nightmare_prompt.
  destruct (percentages_defined (rd_emotions dream_report)) eqn:Hd.
  - rewrite (emotion_summary_list_defined _ Hd). simpl.
    unfold dream_analyzer_service.format_system_prompt.
    rewrite brace_free_system_prompt, Ht.
    fold (dream_analyzer_service.emotions_info
            "No specific emotions detected." (rd_emotions dream_report)).
    rewrite (brace_free_emotions_info _ He).
    assert (dream_analyzer_service.brace_free
              (dream_analyzer_service.keywords_info
                 "No specific keywords provided." (rd_keywords dream_report))
            = true) as ->.
    { unfold dream_analyzer_service.keywords_info.
      destruct (rd_keywords dream_report) eqn:E; [done|].
      rewrite <- E in *. by apply brace_free_concat. }
    simpl. unfold dream_analyzer_service.keywords_info.
    split; [done|]. by intros [_ ?].
  - destruct (emotion_summary_list_undefined _ Hd) as (e & -> & _). simpl.
    split; [discriminate|]. by intros [? _].
Qed.

Lemma X8_witness :
  percentages_defined (rd_emotions (Report_dict scenario.forest_report))
    = true
  ∧ dream_analyzer_service.nightmare_llm
      (analyzer_collaborators scenario.calm)
      (dream_analyzer_service.nightmare_system_prompt scenario.forest_dream
         (String.concat ", "
            (rd_keywords (Report_dict scenario.forest_report)))
         (String.concat "; "
            (map dream_analyzer_service.emotion_text
               (rd_emotions (Report_dict scenario.forest_report)))))
    = Ret "A shadow between black trees".
Proof.
  apply (X8_nightmare_prompt_of_brace_free_texts
           (analyzer_collaborators scenario.calm)
           scenario.forest_dream "A shadow between black trees"
           (Report_dict scenario.forest_report)).
  - vm_compute. reflexivity.
  - vm_compute. reflexivity.
  - vm_compute. reflexivity.
  - vm_compute. reflexivity.
Defined.

(** X23: a brace in the dream text reaches the template. The dream text is
    spliced into the text that [ChatPromptTemplate] reads as a template, so
    with a brace in it the outcome is the template library's: when the
    library raises on that text, [create_nightmare_prompt] raises the same
    exception, whatever the chat model would have answered. *)
Theorem X23_brace_in_dream_text_is_parsed_as_template :
  ∀ (c : dream_analyzer_service.Collaborators) (dream_text : string)
    (dream_report : ReportDict) (e : Exn) (llm' : string → PyResult string),
    dream_analyzer_service.brace_free dream_text = false →
    percentages_defined (rd_emotions dream_report) = true →
    let info :=
      dream_analyzer_service.keywords_info "No specific keywords provided."
        (rd_keywords dream_report) in
    let system_prompt :=
      dream_analyzer_service.nightmare_system_prompt dream_text info
        (dream_analyzer_service.emotions_info "No specific emotions detected."
           (rd_emotions dream_report)) in
    dream_analyzer_service.template_fields c system_prompt
      (dream_analyzer_service.mkRequest dream_text info
         (rd_emotions dream_report)) = Raise e →
    dream_analyzer_service.create_nightmare_prompt c dream_text dream_report
      = Raise e
    ∧ dream_analyzer_service.create_nightmare_prompt
        (dream_analyzer_service.mkCollaborators
           (dream_analyzer_service.template_fields c) llm'
           (dream_analyzer_service.reconstruction_llm c)
           (dream_analyzer_service.json_parser c))
        dream_text dream_report
      = Raise e.
Proof.
  intros c dream_text dream_report e llm' Ht Hd info system_prompt Hraise.
  subst info system_prompt.
  unfold dream_analyzer_service.create_nightmare_prompt.
  rewrite (emotion_summary_list_defined _ Hd). simpl.
  unfold dream_analyzer_service.format_system_prompt.
  rewrite brace_free_system_prompt, Ht. simpl.
  by rewrite Hraise.
Qed.

Lemma X23_witness :
  let e :=
    mkExn KeyError "Input to ChatPromptTemplate is missing variables" in
  dream_analyzer_service.create_nightmare_prompt
    (analyzer_collaborators scenario.calm) "a {door} opened"
    (Report_dict scenario.forest_report)
  = Raise e
  ∧ dream_analyzer_service.create_nightmare_prompt
      (dream_analyzer_service.mkCollaborators
         (dream_analyzer_service.template_fields
            (analyzer_collaborators scenario.calm))
         (λ _, Ret "A door")
         (dream_analyzer_service.reconstruction_llm
            (analyzer_collaborators scenario.calm))
         (dream_analyzer_service.json_parser
            (analyzer_collaborators scenario.calm)))
      "a {door} opened" (Report_dict scenario.forest_report)
    = Raise e.
Proof.
  intros e.
  apply (X23_brace_in_dream_text_is_parsed_as_template
           (analyzer_collaborators scenario.calm) "a {door} opened"
           (Report_dict scenario.forest_report) e (λ _, Ret "A door")).
  - vm_compute. reflexivity.
  - vm_compute. reflexivity.
  - reflexivity.
Defined.

(** X9: when some score of the report has a percentage without integer
    value (a NaN, an infinity, or a finite score that overflows once
    multiplied by 100), both prompt builders raise [ValueError] or
    [OverflowError], and they do so whatever the model and the parser would
    have answered: the exception comes before any request. *)
Theorem X9_undefined_percentage_raises_before_any_request :
  ∀ (c c' : dream_analyzer_service.Collaborators) (dream_text : string)
    (dream_report : ReportDict),
    percentages_defined (rd_emotions dream_report) = false →
    ∃ e, (exn_class e = ValueError ∨ exn_class e = OverflowError)
      ∧ dream_analyzer_service.create_nightmare_prompt
          c dream_text dream_report = Raise e
      ∧ dream_analyzer_service.create_reconstructed_prompt_and_analysis
          c dream_text dream_report = Raise e
      ∧ dream_analyzer_service.create_nightmare_prompt
          c' dream_text dream_report = Raise e
      ∧ dream_analyzer_service.create_reconstructed_prompt_and_analysis
          c' dream_text dream_report = Raise e.
Proof.
  intros c c' dream_text dream_report Hd.
  destruct (emotion_summary_list_undefined _ Hd) as (e & He & Hclass).
  exists e. split; [done|].
  unfold dream_analyzer_service.create_nightmare_prompt,
    dream_analyzer_service.create_reconstructed_prompt_and_analysis.
  by rewrite He.
Qed.

Lemma X9_witness :
  ∃ e, (exn_class e = ValueError ∨ exn_class e = OverflowError)
    ∧ dream_analyzer_service.create_nightmare_prompt
        (analyzer_collaborators scenario.calm) scenario.forest_dream
        (mkReportDict [mkEmotionDict "fear" 0x1p1020%float] [] "")
      = Raise e
    ∧ dream_analyzer_service.create_reconstructed_prompt_and_analysis
        (analyzer_collaborators scenario.calm) scenario.forest_dream
        (mkReportDict [mkEmotionDict "fear" 0x1p1020%float] [] "")
      = Raise e
    ∧ dream_analyzer_service.create_nightmare_prompt
        scenario.echo scenario.forest_dream
        (mkReportDict [mkEmotionDict "fear" 0x1p1020%float] [] "")
      = Raise e
    ∧ dream_analyzer_service.create_reconstructed_prompt_and_analysis
        scenario.echo scenario.forest_dream
        (mkReportDict [mkEmotionDict "fear" 0x1p1020%float] [] "")
      = Raise e.
Proof.
  exact (X9_undefined_percentage_raises_before_any_request
           (analyzer_collaborators scenario.calm) scenario.echo
           scenario.forest_dream
           (mkReportDict [mkEmotionDict "fear" 0x1p1020%float] [] "") eq_refl).
Defined.

(** X10: [create_reconstructed_prompt_and_analysis] has no fallback: with
    percentages that are defined, it raises exactly the exception the model
    raised or, when the model answered, the exception the parser raised on
    that answer. *)
Theorem X10_reconstruction_errors_pass_through :
  ∀ (c : dream_analyzer_service.Collaborators) (dream_text : string)
    (dream_report : ReportDict) (e : Exn),
    percentages_defined (rd_emotions dream_report) = true →
    let request :=
      dream_analyzer_service.mkRequest dream_text
        (dream_analyzer_service.keywords_info "제공된 특정 키워드 없음."
           (rd_keywords dream_report))
        (rd_emotions dream_report) in
    dream_analyzer_service.create_reconstructed_prompt_and_analysis
      c dream_text dream_report = Raise e
    ↔ dream_analyzer_service.reconstruction_llm c request = Raise e
      ∨ ∃ raw, dream_analyzer_service.reconstruction_llm c request = Ret raw
               ∧ dream_analyzer_service.json_parser c raw = Raise e.
Proof.
  intros c dream_text dream_report e Hd request.
  unfold dream_analyzer_service.create_reconstructed_prompt_and_analysis.
  rewrite (emotion_summary_list_defined _ Hd). simpl. fold request.
  unfold mbind, pyresult_bind, mret, pyresult_ret.
  destruct (dream_analyzer_service.reconstruction_llm c request)
    as [raw|e1]; simpl.
  - destruct (dream_analyzer_service.json_parser c raw) as [r|e2] eqn:Hp.
    + split; [discriminate|]. intros [|(raw' & [= <-] & ?)]; congruence.
    + split.
      * intros [= <-]. right. by exists raw.
      * intros [|(raw' & [= <-] & ?)]; congruence.
  - split; [intros [= <-]; by left|].
    intros [[= <-]|(raw' & ? & _)]; [done|discriminate].
Qed.

Lemma X10_witness :
  let c :=
    dream_analyzer_service.mkCollaborators
      (λ text _, Ret text) (λ _, Ret "") (λ _, Ret "not json")
      (λ raw, Raise (mkExn OutputParserException raw)) in
  dream_analyzer_service.create_reconstructed_prompt_and_analysis
    c scenario.forest_dream (Report_dict scenario.forest_report)
  = Raise (mkExn OutputParserException "not json").
Proof.
  intros c.
  apply (X10_reconstruction_errors_pass_through c scenario.forest_dream
           (Report_dict scenario.forest_report)
           (mkExn OutputParserException "not json") eq_refl).
  right. by exists "not json".
Defined.

(** ** services/image_generator_service.py and the image panels of app.py *)

Import image_generator_service display.

Lemma prefix_app (needle rest : string) :
  String.prefix needle (needle ++ rest) = true.
Proof.
  induction needle as [|x needle IH]; [by destruct rest|].
  change (String.prefix (String x needle) (String x (needle ++ rest)) = true).
  simpl. destruct (Ascii.ascii_dec x x); [done|congruence].
Qed.

Lemma contains_prefix (needle hay : string) :
  String.prefix needle hay = true → contains needle hay = true.
Proof.
  intros H. destruct hay as [|x hay].
  - change (String.prefix needle "" || false = true). by rewrite H.
  - change (String.prefix needle (String x hay) || contains needle hay
            = true).
    by rewrite H.
Qed.

Lemma contains_app (needle before after : string) :
  contains needle (before ++ needle ++ after) = true.
Proof.
  induction before as [|x before IH].
  - change ("" ++ needle ++ after) with (needle ++ after).
    apply contains_prefix. apply prefix_app.
  - change (String.prefix needle (String x (before ++ needle ++ after))
            || contains needle (before ++ needle ++ after) = true).
    rewrite IH. apply orb_true_r.
Qed.

(** X11: what [generate_image_from_prompt] returns is never the empty
    string, and is drawn by the image panel of the application as a picture
    only if it is the URL of the first image the endpoint returned; every
    failure text is drawn as a notice. *)
Theorem X11_only_an_endpoint_url_is_drawn_as_picture :
  ∀ (api : string → Outcome) (prompt text : string),
    generate_image_from_prompt api prompt = Returned text →
    text ≠ ""
    ∧ image_panel text ≠ Nothing
    ∧ (∀ u, image_panel text = Picture u →
         u = text
         ∧ ∃ rest, api prompt = Response (Some (mkImage (Some text) :: rest))).
Proof.
  intros api prompt text. unfold generate_image_from_prompt.
  destruct (api prompt) as [[[|[[u|]] rest]|]|[code|] [body|]|e]; simpl;
    try discriminate.
  all: try (intros [= <-]; split_and!; [done|done|];
            by intros u' Hu; vm_compute in Hu).
  destruct (truthy_str u) eqn:Hu.
  - intros [= <-]. apply truthy_str_true in Hu as Hne.
    split_and!; [done| |].
    + unfold image_panel. rewrite Hu. by destruct (String.prefix _ _).
    + intros u' Hp. unfold image_panel in Hp. rewrite Hu in Hp.
      destruct (String.prefix "http" u); simplify_eq. split; [done|].
      by exists rest.
  - intros [= <-]. split_and!; [done|done|].
    by intros u' Hu'; vm_compute in Hu'.
Qed.

Lemma X11_witness :
  let api : string → Outcome :=
    λ _, Response (Some [mkImage (Some "https://images.example/1")]) in
  "https://images.example/1" ≠ ""
  ∧ image_panel "https://images.example/1" ≠ Nothing
  ∧ (∀ u, image_panel "https://images.example/1" = Picture u →
       u = "https://images.example/1"
       ∧ ∃ rest,
           api "a forest"
           = Response
               (Some (mkImage (Some "https://images.example/1") :: rest))).
Proof.
  intros api.
  exact (X11_only_an_endpoint_url_is_drawn_as_picture
           api "a forest" "https://images.example/1" eq_refl).
Defined.

(** X12: a policy marker wins over everything else in the raw text: when
    the raw text mentions "safety system" or "image_generation_user_error"
    anywhere, the notice is the filtering notice, also when the text mentions
    "500" or an error class as well. In particular an API error whose
    response text mentions "safety system" is returned by the image service
    as a text that the panel draws as the filtering notice, whatever its
    status code. *)
Theorem X12_policy_marker_wins :
  (∀ before after,
     translate_image_error_message (before ++ "safety system" ++ after)
     = filtered_notice)
  ∧ (∀ before after,
       translate_image_error_message
         (before ++ "image_generation_user_error" ++ after)
       = filtered_notice)
  ∧ (∀ (api : string → Outcome) (prompt before after : string) (code : Z),
       api prompt
         = RaisedAPIError (Some code)
             (Some (before ++ "safety system" ++ after)) →
       ∃ raw, generate_image_from_prompt api prompt = Returned raw
              ∧ image_panel raw = Notice filtered_notice raw).
Proof.
  assert (∀ before after,
            translate_image_error_message
              (before ++ "safety system" ++ after) = filtered_notice) as H1.
  { intros before after. unfold translate_image_error_message.
    rewrite (contains_app "safety system"). by rewrite orb_true_r. }
  split_and!; [done| |].
  - intros before after. unfold translate_image_error_message.
    by rewrite (contains_app "image_generation_user_error").
  - intros api prompt before after code Hapi.
    unfold generate_image_from_prompt. rewrite Hapi. eexists. split; [done|].
    unfold image_panel.
    change (truthy_str ("OpenAI API 오류 발생: " ++ _)) with true.
    change (String.prefix "http" ("OpenAI API 오류 발생: " ++ _)) with false.
    cbv iota. f_equal.
    rewrite <- !string_app_assoc. rewrite string_app_assoc. apply H1.
Qed.

Lemma X12_witness :
  let api : string → Outcome :=
    λ _, RaisedAPIError (Some 500%Z)
           (Some ("Rejected by the " ++ "safety system" ++ ".")) in
  ∃ raw, generate_image_from_prompt api "a forest" = Returned raw
         ∧ image_panel raw = Notice filtered_notice raw.
Proof.
  intros api.
  exact (proj2 (proj2 X12_policy_marker_wins) api "a forest"
           "Rejected by the " "." 500%Z eq_refl).
Defined.

(** ** core/indexing_service.py *)

(** X13: [build_vector_store] raises exactly when the API key is missing or
    empty (a [ValueError], before anything is loaded); it saves an index only
    from a non-empty list of chunks, which is the split of the markdown
    documents followed by the text documents; and an empty directory, an
    empty split and every exception of the loaders or of the embedding end
    the call without an index and without an exception. *)
Theorem X13_index_is_built_only_from_chunks :
  ∀ (c : indexing_service.Collaborators),
    (∀ e, indexing_service.build_vector_store c = Raise e
          ↔ indexing_service.truthy_env (indexing_service.getenv_api_key c)
              = false
            ∧ e = mkExn ValueError
                    "OPENAI_API_KEY 환경변수가 설정되지 않았습니다.")
    ∧ (∀ docs,
         indexing_service.build_vector_store c
           = Ret (indexing_service.Saved docs) →
         docs ≠ []
         ∧ indexing_service.embed_and_save c docs = Ret ()
         ∧ ∃ md txt,
             indexing_service.md_loader_load c = Ret md
             ∧ indexing_service.txt_loader_load c = Ret txt
             ∧ (md ++ txt)%list ≠ []
             ∧ docs = indexing_service.split_documents c (md ++ txt))
    ∧ (indexing_service.md_loader_load c = Ret []
       → indexing_service.txt_loader_load c = Ret []
       → indexing_service.truthy_env (indexing_service.getenv_api_key c)
           = true
       → indexing_service.build_vector_store c
           = Ret indexing_service.NoDocuments).
Proof.
  intros c. unfold indexing_service.build_vector_store.
  unfold mbind, pyresult_bind.
  destruct (indexing_service.truthy_env _) eqn:Hkey; simpl.
  - destruct (indexing_service.md_loader_load c) as [md|e1];
      [destruct (indexing_service.txt_loader_load c) as [txt|e2]|]; simpl.
    + destruct (md ++ txt)%list as [|d ds] eqn:Hdocs.
      * split_and!; [by split; [|intros [? _]]|done|].
        intros [= ->] [= ->] _. done.
      * destruct (indexing_service.split_documents c (d :: ds))
          as [|k ks] eqn:Hsplit.
        -- split_and!; [by split; [|intros [? _]]|done|].
           intros [= ->] [= ->]. done.
        -- destruct (indexing_service.embed_and_save c (k :: ks))
             as [[]|e3] eqn:Hsave.
           ++ split_and!; [by split; [|intros [? _]]| |].
              ** intros docs [= <-]. split_and!; [done|done|].
                 exists md, txt. rewrite Hdocs. by split_and!.
              ** intros [= ->] [= ->]. done.
           ++ split_and!; [by split; [|intros [? _]]|done|].
              intros [= ->] [= ->]. done.
    + split_and!; [by split; [|intros [? _]]|done|done].
    + split_and!; [by split; [|intros [? _]]|done|done].
  - split_and!; [|done|done].
    intros e. split; [by intros [= <-]|by intros [_ ->]].
Qed.

Lemma X13_witness :
  let c :=
    indexing_service.mkCollaborators (Some "sk-test")
      (Ret ["# Forests"]) (Ret ["Shadows"])
      (λ documents, documents) (λ _, Ret ()) in
  ["# Forests"; "Shadows"] ≠ []
  ∧ indexing_service.embed_and_save c ["# Forests"; "Shadows"] = Ret ()
  ∧ ∃ md txt,
      indexing_service.md_loader_load c = Ret md
      ∧ indexing_service.txt_loader_load c = Ret txt
      ∧ (md ++ txt)%list ≠ []
      ∧ ["# Forests"; "Shadows"]
        = indexing_service.split_documents c (md ++ txt).
Proof.
  intros c.
  exact (proj1 (proj2 (X13_index_is_built_only_from_chunks c))
           ["# Forests"; "Shadows"] eq_refl).
Defined.

(** * Further properties: the script of app.py *)

(** ** The audio widgets *)

(** X14: an uploaded file replaces the recording even when it is empty: a
    run that finds an empty upload processes no audio at all, also when the
    recorder holds a recording, and is the run without audio. *)
Theorem X14_empty_upload_hides_the_recording :
  ∀ (m : Machine) (inp : Inputs) (name : string),
    uploaded_file inp = Some ([], name) →
    audio_input inp = Some []
    ∧ run m inp = run m (without_audio inp)
    ∧ exit_of m inp = exit_of m (without_audio inp).
Proof.
  intros m inp name Hup.
  assert (audio_input inp = Some []) as Hin.
  { unfold audio_input. by rewrite Hup. }
  split; [done|].
  destruct m as [s fs j p]. unfold without_audio. unfold_script. simpl.
  rewrite Hin. simpl. split; reflexivity.
Qed.

Lemma X14_witness :
  let inp :=
    mkInputs (Some scenario.recording) (Some ([], "empty.wav"))
      "/tmp/tmpa1b2c3" (Ret ()) (Ret ()) false false false
      (initialize_services scenario.calm) in
  audio_input inp = Some []
  ∧ run (new_session ∅) inp = run (new_session ∅) (without_audio inp)
  ∧ exit_of (new_session ∅) inp = exit_of (new_session ∅) (without_audio inp).
Proof.
  intros inp.
  exact (X14_empty_upload_hides_the_recording (new_session ∅) inp "empty.wav"
           eq_refl).
Defined.

(** ** A session that was flagged *)

(** Open the script of a run on a processed session: the audio block is
    skipped before any test is split. *)
Ltac exec_processed :=
  unfold_script; simpl in *; rewrite ?andb_false_r; simpl;
  repeat (first [bars_step | case_match];
          simplify_eq/=; unfold_script; simpl in * ).

Lemma run_frozen m inp :
  audio_processed (session_state m) = true →
  dream_text (session_state m) = "" →
  analysis_started (session_state m) = false →
  dream_report (session_state m) = None →
  session_state (run m inp) = session_state m
  ∧ forallb only_shown (events_since m (run m inp)) = true
  ∧ exit_of m inp = Next ().
Proof.
  unfold events_since.
  destruct m as [s fs j p]; destruct s; simpl. intros -> -> -> ->.
  exec_processed.
  all: rewrite <- ?app_assoc;
    rewrite ?drop_app_length, ?drop_all, ?app_nil_r; done.
Qed.

Lemma runs_frozen m inps :
  audio_processed (session_state m) = true →
  dream_text (session_state m) = "" →
  analysis_started (session_state m) = false →
  dream_report (session_state m) = None →
  session_state (runs m inps) = session_state m
  ∧ forallb only_shown (events_since m (runs m inps)) = true.
Proof.
  revert m. induction inps as [|inp inps IH]; intros m Hp Ht Ha Hr; simpl.
  - split; [done|]. unfold events_since. by rewrite drop_all.
  - destruct (run_frozen m inp Hp Ht Ha Hr) as (Hst & Hev & _).
    destruct (IH (run m inp)) as [Hst' Hev']; rewrite ?Hst; try done.
    split; [congruence|].
    rewrite (events_since_app m (run m inp) _
               (journal_run m inp) (journal_runs _ inps)).
    rewrite forallb_app, Hev, Hev'. done.
Qed.

(** X15: a flagged session is frozen. In every session, once a moderation
    verdict flagged a text, no later run changes any key of the session
    state, whatever is clicked, recorded or uploaded, and the later runs call
    no service: all they do is show status boxes. *)
Theorem X15_flagged_session_is_frozen :
  ∀ (fs : gmap string bytes) (inps later : list Inputs) (t : string),
    let m := runs (new_session fs) inps in
    ModerationVerdict t true ∈ journal m →
    session_state (runs m later) = session_state m
    ∧ forallb only_shown (events_since m (runs m later)) = true.
Proof.
  intros fs inps later t m Hflag.
  pose proof (Inv_session fs inps) as Hm. fold m in Hm.
  pose proof (inv_flagged _ Hm t Hflag) as Ht.
  assert (audio_processed (session_state m) = true) as Hp.
  { destruct (audio_processed (session_state m)) eqn:E; [done|].
    by destruct (inv_fresh _ Hm E t true). }
  assert (analysis_started (session_state m) = false) as Ha.
  { destruct (analysis_started (session_state m)) eqn:E; [|done].
    by destruct (inv_confirmed _ Hm E). }
  assert (dream_report (session_state m) = None) as Hr.
  { destruct (dream_report (session_state m)) eqn:E; [|done].
    assert (analysis_started (session_state m) = true)
      by (apply (inv_report _ Hm); by rewrite E).
    congruence. }
  by apply runs_frozen.
Qed.

Lemma X15_witness :
  let m :=
    runs (new_session ∅) [scenario.speak scenario.strict scenario.recording] in
  let later :=
    [scenario.click_analyze scenario.calm;
     scenario.speak scenario.calm scenario.second_recording;
     scenario.click_nightmare scenario.calm] in
  session_state (runs m later) = session_state m
  ∧ forallb only_shown (events_since m (runs m later)) = true.
Proof.
  intros m later.
  apply (X15_flagged_session_is_frozen
           ∅ [scenario.speak scenario.strict scenario.recording] later
           scenario.forest_dream).
  vm_compute. set_solver.
Defined.

(** ** An empty transcript *)

Lemma run_silent m inp :
  audio_processed (session_state m) = true →
  original_dream_text (session_state m) = "" →
  analysis_started (session_state m) = false →
  dream_report (session_state m) = None →
  session_state (run m inp) = session_state m
  ∧ events_since m (run m inp) = []
  ∧ exit_of m inp = Next ().
Proof.
  unfold events_since.
  destruct m as [s fs j p]; destruct s; simpl. intros -> -> -> ->.
  exec_processed.
  all: rewrite ?drop_all; done.
Qed.

Lemma runs_silent m inps :
  audio_processed (session_state m) = true →
  original_dream_text (session_state m) = "" →
  analysis_started (session_state m) = false →
  dream_report (session_state m) = None →
  session_state (runs m inps) = session_state m
  ∧ events_since m (runs m inps) = [].
Proof.
  revert m. induction inps as [|inp inps IH]; intros m Hp Ht Ha Hr; simpl.
  - split; [done|]. unfold events_since. by rewrite drop_all.
  - destruct (run_silent m inp Hp Ht Ha Hr) as (Hst & Hev & _).
    destruct (IH (run m inp)) as [Hst' Hev']; rewrite ?Hst; try done.
    split; [congruence|].
    rewrite (events_since_app m (run m inp) _
               (journal_run m inp) (journal_runs _ inps)).
    by rewrite Hev, Hev'.
Qed.

(** X16: when the transcription endpoint returns the empty string, the run
    marks the audio as processed with an empty transcript, and from then on
    the session is silent: whatever moderation said, no later run shows
    anything, calls any service or changes the session state, and further
    audio is ignored. *)
Theorem X16_empty_transcript_silences_the_session :
  ∀ (w : Providers) (m : Machine) (inp : Inputs) (later : list Inputs)
    (data : bytes),
    services inp = initialize_services w →
    audio_input inp = Some data →
    truthy_bytes data = true →
    audio_processed (session_state m) = false →
    temp_create inp = Ret () →
    temp_write inp = Ret () →
    transcriptions_create w data = Ret "" →
    session_state (run m inp) = set_audio_processed true session_defaults
    ∧ session_state (runs (run m inp) later) = session_state (run m inp)
    ∧ events_since (run m inp) (runs (run m inp) later) = [].
Proof.
  intros w m inp later data Hs Hin Hd Hp Hc Hw Hempty.
  destruct (run_audio_real w m inp data Hs Hin Hd Hp Hc Hw) as (Hst & _ & _).
  rewrite Hempty in Hst.
  assert (session_state (run m inp)
          = set_audio_processed true session_defaults) as Hst'.
  { rewrite Hst. by destruct (sr_flagged _). }
  split; [done|]. apply runs_silent; by rewrite Hst'.
Qed.

Lemma X16_witness :
  let w := with_transcriptions scenario.calm (λ _, Ret "") in
  let m1 := run (new_session ∅) (scenario.speak w scenario.recording) in
  let later :=
    [scenario.click_analyze w; scenario.speak w scenario.second_recording] in
  session_state m1 = set_audio_processed true session_defaults
  ∧ session_state (runs m1 later) = session_state m1
  ∧ events_since m1 (runs m1 later) = [].
Proof.
  intros w m1 later.
  exact (X16_empty_transcript_silences_the_session
           w (new_session ∅) (scenario.speak w scenario.recording) later
           scenario.recording eq_refl eq_refl eq_refl eq_refl eq_refl eq_refl
           eq_refl).
Defined.

(** ** The two views *)

(** X17: prompt synthesis and image synthesis are downstream of the report:
    a run calls the nightmare prompt builder, the reconstruction builder or
    the image service only if the session held a report when the run
    started, and it calls the builders on the transcript of the session. *)
Theorem X17_views_need_a_report :
  ∀ (m : Machine) (inp : Inputs) (ev : Event),
    ev ∈ events_since m (run m inp) →
    match ev with
    | NightmarePromptCall t | ReconstructionCall t =>
        dream_report (session_state m) ≠ None
        ∧ t = original_dream_text (session_state m)
    | ImageCall _ => dream_report (session_state m) ≠ None
    | _ => True
    end.
Proof.
  unfold events_since. intros [s fs j p] inp ev; simpl.
  exec.
  all: rewrite <- ?app_assoc;
    rewrite ?drop_app_length, ?drop_all, ?app_nil_r.
  all: intros Hin; journal_facts; try done.
  all: bools; destruct_and?; simplify_eq/=; try done.
  all: by repeat split; congruence.
Qed.

Lemma X17_witness :
  let m := runs (new_session ∅) (scenario.confirm_and_wait scenario.calm) in
  dream_report (session_state m) ≠ None
  ∧ scenario.forest_dream = original_dream_text (session_state m).
Proof.
  intros m.
  apply (X17_views_need_a_report m (scenario.click_nightmare scenario.calm)
           (NightmarePromptCall scenario.forest_dream)).
  vm_compute. set_solver.
Defined.

(** ** The buttons of the two views *)

Lemma emotion_bars_in_range l m :
  forallb (λ emo, unit_interval (ed_score emo)) l = true →
  emotion_bars l m = (m, Next ()).
Proof.
  revert m. induction l as [|emo l IH]; intros m; simpl; [done|].
  intros [Hemo Hl]%andb_true_iff.
  unfold st_progress, mbind, script_bind. unfold unit_interval in Hemo.
  rewrite Hemo. simpl. by apply IH.
Qed.

Ltac bars_in_range H :=
  match goal with
  | |- context [emotion_bars ?l ?m] =>
      rewrite (emotion_bars_in_range l m H)
  end.

(** Open the script of a run whose progress bars are all drawn. *)
Ltac exec_drawn H :=
  unfold_script; simpl in *; rewrite ?andb_false_r; simpl;
  repeat (first [bars_in_range H | case_match];
          simplify_eq/=; unfold_script; simpl in * ).

Lemma run_nightmare_click m inp r :
  audio_processed (session_state m) = true →
  analysis_started (session_state m) = true →
  dream_report (session_state m) = Some r →
  scores_in_range r = true →
  nightmare_clicked inp = true →
  let s := session_state m in
  let t := original_dream_text s in
  match analyzer_create_nightmare_prompt (services inp) t r with
  | Raise e =>
      session_state (run m inp) = s
      ∧ service_calls (events_since m (run m inp)) = [NightmarePromptCall t]
      ∧ exit_of m inp = Stop (Uncaught e)
  | Ret prompt =>
      service_calls (events_since m (run m inp))
        = [NightmarePromptCall t; ImageCall prompt]
      ∧ match img_gen_generate_image_from_prompt (services inp) prompt with
        | Raise e =>
            session_state (run m inp) = set_nightmare_prompt prompt s
            ∧ exit_of m inp = Stop (Uncaught e)
        | Ret image_url =>
            session_state (run m inp)
              = set_nightmare_image_url image_url
                  (set_nightmare_prompt prompt s)
            ∧ exit_of m inp = Stop Rerun
        end
  end.
Proof.
  unfold events_since, scores_in_range.
  destruct m as [s fs j p]; destruct s; simpl. intros -> -> -> Hr Hc.
  exec_drawn Hr.
  all: try (exfalso; rewrite ?andb_false_r in *; congruence).
  all: rewrite <- ?app_assoc;
    rewrite ?drop_app_length, ?drop_all, ?app_nil_r; done.
Qed.

Lemma run_reconstruct_click m inp r :
  audio_processed (session_state m) = true →
  analysis_started (session_state m) = true →
  dream_report (session_state m) = Some r →
  scores_in_range r = true →
  nightmare_clicked inp = false →
  reconstruct_clicked inp = true →
  let s := session_state m in
  let t := original_dream_text s in
  match analyzer_create_reconstructed_prompt_and_analysis (services inp) t r
  with
  | Raise e =>
      session_state (run m inp) = s
      ∧ service_calls (events_since m (run m inp)) = [ReconstructionCall t]
      ∧ exit_of m inp = Stop (Uncaught e)
  | Ret (prompt, summary, mappings) =>
      let s' :=
        set_keyword_mappings mappings
          (set_transformation_summary summary
             (set_reconstructed_prompt prompt s)) in
      service_calls (events_since m (run m inp))
        = [ReconstructionCall t; ImageCall prompt]
      ∧ match img_gen_generate_image_from_prompt (services inp) prompt with
        | Raise e =>
            session_state (run m inp) = s'
            ∧ exit_of m inp = Stop (Uncaught e)
        | Ret image_url =>
            session_state (run m inp)
              = set_reconstructed_image_url image_url s'
            ∧ exit_of m inp = Stop Rerun
        end
  end.
Proof.
  unfold events_since, scores_in_range.
  destruct m as [s fs j p]; destruct s; simpl. intros -> -> -> Hr Hn Hc.
  exec_drawn Hr.
  all: try (exfalso; rewrite ?andb_false_r in *; congruence).
  all: rewrite <- ?app_assoc;
    rewrite ?drop_app_length, ?drop_all, ?app_nil_r; done.
Qed.

(** X18: the nightmare button, in any session that holds a report whose
    scores all lie in [0, 1]. The run asks the prompt builder for a prompt
    on the transcript and the stored report; if the builder raises, the
    session state is unchanged; otherwise the prompt is stored and the image
    service is called on it once; if that raises, the prompt stays stored
    beside the former image text; otherwise its text replaces the stored
    one and the run ends with a rerun. Nothing else is called: the
    reconstruction button of the same run is not looked at. *)
Theorem X18_nightmare_button :
  ∀ (fs : gmap string bytes) (inps : list Inputs) (inp : Inputs)
    (r : ReportDict),
    let m := runs (new_session fs) inps in
    let s := session_state m in
    let t := original_dream_text s in
    dream_report s = Some r →
    scores_in_range r = true →
    nightmare_clicked inp = true →
    match analyzer_create_nightmare_prompt (services inp) t r with
    | Raise e =>
        session_state (run m inp) = s
        ∧ service_calls (events_since m (run m inp)) = [NightmarePromptCall t]
        ∧ exit_of m inp = Stop (Uncaught e)
    | Ret prompt =>
        service_calls (events_since m (run m inp))
          = [NightmarePromptCall t; ImageCall prompt]
        ∧ match img_gen_generate_image_from_prompt (services inp) prompt with
          | Raise e =>
              session_state (run m inp) = set_nightmare_prompt prompt s
              ∧ exit_of m inp = Stop (Uncaught e)
          | Ret image_url =>
              session_state (run m inp)
                = set_nightmare_image_url image_url
                    (set_nightmare_prompt prompt s)
              ∧ exit_of m inp = Stop Rerun
          end
    end.
Proof.
  intros fs inps inp r m s t Hr Hin Hc.
  pose proof (Inv_session fs inps) as Hm. fold m in Hm.
  assert (dream_report (session_state m) ≠ None) as Hne by (fold s; congruence).
  apply (run_nightmare_click m inp r); try done.
  - by apply Inv_populated.
  - by apply (inv_report _ Hm).
Qed.

Lemma X18_witness :
  let m := runs (new_session ∅) (scenario.confirm_and_wait scenario.calm) in
  let inp := scenario.click_nightmare scenario.calm in
  let s := session_state m in
  let t := original_dream_text s in
  match analyzer_create_nightmare_prompt (services inp) t
          (Report_dict scenario.forest_report) with
  | Raise e =>
      session_state (run m inp) = s
      ∧ service_calls (events_since m (run m inp)) = [NightmarePromptCall t]
      ∧ exit_of m inp = Stop (Uncaught e)
  | Ret prompt =>
      service_calls (events_since m (run m inp))
        = [NightmarePromptCall t; ImageCall prompt]
      ∧ match img_gen_generate_image_from_prompt (services inp) prompt with
        | Raise e =>
            session_state (run m inp) = set_nightmare_prompt prompt s
            ∧ exit_of m inp = Stop (Uncaught e)
        | Ret image_url =>
            session_state (run m inp)
              = set_nightmare_image_url image_url
                  (set_nightmare_prompt prompt s)
            ∧ exit_of m inp = Stop Rerun
        end
  end.
Proof.
  intros m inp.
  apply (X18_nightmare_button ∅ (scenario.confirm_and_wait scenario.calm) inp
           (Report_dict scenario.forest_report)).
  - vm_compute. reflexivity.
  - vm_compute. reflexivity.
  - reflexivity.
Defined.

(** X19: the reconstruction button, in any session that holds a report
    whose scores all lie in [0, 1], in a run where the nightmare button is
    not pressed. If the builder raises, the session state is unchanged;
    otherwise prompt, summary and mappings are stored together and the image
    service is called once, on that prompt; if it raises, the three stay
    stored beside the former image text; otherwise its text replaces the
    stored one and the run ends with a rerun. *)
Theorem X19_reconstruction_button :
  ∀ (fs : gmap string bytes) (inps : list Inputs) (inp : Inputs)
    (r : ReportDict),
    let m := runs (new_session fs) inps in
    let s := session_state m in
    let t := original_dream_text s in
    dream_report s = Some r →
    scores_in_range r = true →
    nightmare_clicked inp = false →
    reconstruct_clicked inp = true →
    match analyzer_create_reconstructed_prompt_and_analysis (services inp) t r
    with
    | Raise e =>
        session_state (run m inp) = s
        ∧ service_calls (events_since m (run m inp)) = [ReconstructionCall t]
        ∧ exit_of m inp = Stop (Uncaught e)
    | Ret (prompt, summary, mappings) =>
        let s' :=
          set_keyword_mappings mappings
            (set_transformation_summary summary
               (set_reconstructed_prompt prompt s)) in
        service_calls (events_since m (run m inp))
          = [ReconstructionCall t; ImageCall prompt]
        ∧ match img_gen_generate_image_from_prompt (services inp) prompt with
          | Raise e =>
              session_state (run m inp) = s'
              ∧ exit_of m inp = Stop (Uncaught e)
          | Ret image_url =>
              session_state (run m inp)
                = set_reconstructed_image_url image_url s'
              ∧ exit_of m inp = Stop Rerun
          end
    end.
Proof.
  intros fs inps inp r m s t Hr Hin Hn Hc.
  pose proof (Inv_session fs inps) as Hm. fold m in Hm.
  assert (dream_report (session_state m) ≠ None) as Hne by (fold s; congruence).
  apply (run_reconstruct_click m inp r); try done.
  - by apply Inv_populated.
  - by apply (inv_report _ Hm).
Qed.

Lemma X19_witness :
  let m := runs (new_session ∅) (scenario.confirm_and_wait scenario.calm) in
  let inp :=
    mkInputs None None "/tmp/tmpa1b2c3" (Ret ()) (Ret ()) false false true
      (initialize_services scenario.calm) in
  let s := session_state m in
  let t := original_dream_text s in
  match analyzer_create_reconstructed_prompt_and_analysis (services inp) t
          (Report_dict scenario.forest_report) with
  | Raise e =>
      session_state (run m inp) = s
      ∧ service_calls (events_since m (run m inp)) = [ReconstructionCall t]
      ∧ exit_of m inp = Stop (Uncaught e)
  | Ret (prompt, summary, mappings) =>
      let s' :=
        set_keyword_mappings mappings
          (set_transformation_summary summary
             (set_reconstructed_prompt prompt s)) in
      service_calls (events_since m (run m inp))
        = [ReconstructionCall t; ImageCall prompt]
      ∧ match img_gen_generate_image_from_prompt (services inp) prompt with
        | Raise e =>
            session_state (run m inp) = s'
            ∧ exit_of m inp = Stop (Uncaught e)
        | Ret image_url =>
            session_state (run m inp)
              = set_reconstructed_image_url image_url s'
            ∧ exit_of m inp = Stop Rerun
        end
  end.
Proof.
  intros m inp.
  apply (X19_reconstruction_button
           ∅ (scenario.confirm_and_wait scenario.calm) inp
           (Report_dict scenario.forest_report)).
  - vm_compute. reflexivity.
  - vm_compute. reflexivity.
  - reflexivity.
  - reflexivity.
Defined.

(** ** The temporary file and the confirmation *)

(** X20: when writing the audio into the temporary file raises, the run has
    already reset the session state to its defaults, it calls no service and
    shows nothing, the exception escapes, and the created file is left
    behind: the cleanup only removes a file whose name was bound, and the
    name is bound after the write. *)
Theorem X20_failed_write_leaves_the_file :
  ∀ (m : Machine) (inp : Inputs) (data : bytes) (e : Exn),
    audio_input inp = Some data →
    truthy_bytes data = true →
    audio_processed (session_state m) = false →
    temp_create inp = Ret () →
    temp_write inp = Raise e →
    session_state (run m inp) = session_defaults
    ∧ events_since m (run m inp) = []
    ∧ path_exists (scratch (run m inp)) (temp_name inp ++ ".wav") = true
    ∧ exit_of m inp = Stop (Uncaught e).
Proof.
  intros m inp data e Hin Hd Hp Hc Hw.
  unfold events_since, path_exists. destruct m as [s fs j p]; simpl in *.
  unfold_script. simpl. rewrite Hin, Hp, Hc, Hw. simpl. rewrite Hd. simpl.
  rewrite drop_all, lookup_insert_eq. done.
Qed.

Lemma X20_witness :
  let disk_full := mkExn OSError "[Errno 28] No space left on device" in
  let inp :=
    mkInputs (Some scenario.recording) None "/tmp/tmpa1b2c3" (Ret ())
      (Raise disk_full) false false false
      (initialize_services scenario.calm) in
  session_state (run (new_session ∅) inp) = session_defaults
  ∧ events_since (new_session ∅) (run (new_session ∅) inp) = []
  ∧ path_exists (scratch (run (new_session ∅) inp)) (temp_name inp ++ ".wav")
    = true
  ∧ exit_of (new_session ∅) inp = Stop (Uncaught disk_full).
Proof.
  intros disk_full inp.
  exact (X20_failed_write_leaves_the_file (new_session ∅) inp
           scenario.recording disk_full eq_refl eq_refl eq_refl eq_refl
           eq_refl).
Defined.

(** X21: in every session, a run that starts confirmed and without a report
    calls the report generator on the transcript, whatever the inputs of the
    run are. If the generator returns, the report and its keywords are
    stored and the run ends with a rerun; if it raises, the exception
    escapes and the session state is as before, still confirmed and without
    a report, so that the next run is again such a run. *)
Theorem X21_report_is_requested_until_stored :
  ∀ (fs : gmap string bytes) (inps : list Inputs) (inp : Inputs),
    let m := runs (new_session fs) inps in
    let s := session_state m in
    analysis_started s = true →
    dream_report s = None →
    service_calls (events_since m (run m inp))
      = [ReportCall (original_dream_text s)]
    ∧ match report_gen_generate_report_with_rag (services inp)
              (original_dream_text s) with
      | Ret report =>
          session_state (run m inp)
            = set_nightmare_keywords (rd_keywords report)
                (set_dream_report (Some report) s)
          ∧ exit_of m inp = Stop Rerun
      | Raise e =>
          session_state (run m inp) = s
          ∧ exit_of m inp = Stop (Uncaught e)
      end.
Proof.
  intros fs inps inp m s Ha Hr.
  pose proof (Inv_session fs inps) as Hm. fold m in Hm.
  destruct (Inv_confirmed _ Hm Ha) as (Heq & Hne & Hp & _).
  assert (dream_text (session_state m) ≠ "") as Ht by (by rewrite Heq).
  destruct (run_report_call m inp Hp Hne Ht Ha Hr) as [Hev Hst].
  split; [|exact Hst]. by rewrite Hev.
Qed.

Lemma X21_witness :
  let w :=
    mkProviders (transcriptions_create scenario.calm)
      (moderations_create scenario.calm)
      (report_generator_service.mkCollaborators None
         (llm (report_collaborators scenario.calm))
         (parser (report_collaborators scenario.calm)))
      (analyzer_collaborators scenario.calm)
      (app.generate_image_from_prompt scenario.calm) in
  let m :=
    runs (new_session ∅)
      [scenario.speak w scenario.recording; scenario.click_analyze w] in
  let inp := scenario.idle w in
  let s := session_state m in
  service_calls (events_since m (run m inp))
    = [ReportCall (original_dream_text s)]
  ∧ match report_gen_generate_report_with_rag (services inp)
            (original_dream_text s) with
    | Ret report =>
        session_state (run m inp)
          = set_nightmare_keywords (rd_keywords report)
              (set_dream_report (Some report) s)
        ∧ exit_of m inp = Stop Rerun
    | Raise e =>
        session_state (run m inp) = s
        ∧ exit_of m inp = Stop (Uncaught e)
    end.
Proof.
  intros w m inp.
  apply (X21_report_is_requested_until_stored
           ∅ [scenario.speak w scenario.recording; scenario.click_analyze w]
           inp).
  - vm_compute. reflexivity.
  - vm_compute. reflexivity.
Defined.

Lemma run_confirm_click m inp :
  audio_processed (session_state m) = true →
  original_dream_text (session_state m) ≠ "" →
  dream_text (session_state m) ≠ "" →
  analysis_started (session_state m) = false →
  analyze_clicked inp = true →
  session_state (run m inp) = set_analysis_started true (session_state m)
  ∧ service_calls (events_since m (run m inp)) = []
  ∧ exit_of m inp = Stop Rerun.
Proof.
  unfold events_since.
  destruct m as [s fs j p]; simpl. intros Hp Ho Ht Ha Hc.
  apply truthy_str_true in Ho, Ht.
  exec.
  all: try (exfalso; rewrite ?Hp, ?Ho, ?Ht, ?Ha, ?Hc in *; simpl in *;
            rewrite ?andb_false_r in *; congruence).
  all: rewrite <- ?app_assoc; rewrite ?drop_app_length; done.
Qed.

(** X22: the confirmation button. In every session whose working text is
    not empty and whose analysis has not started, a run with the button
    pressed sets [analysis_started] and nothing else, calls no service, not
    even the report generator, and ends with a rerun. *)
Theorem X22_confirmation_only_sets_the_flag :
  ∀ (fs : gmap string bytes) (inps : list Inputs) (inp : Inputs),
    let m := runs (new_session fs) inps in
    dream_text (session_state m) ≠ "" →
    analysis_started (session_state m) = false →
    analyze_clicked inp = true →
    session_state (run m inp) = set_analysis_started true (session_state m)
    ∧ service_calls (events_since m (run m inp)) = []
    ∧ exit_of m inp = Stop Rerun.
Proof.
  intros fs inps inp m Ht Ha Hc.
  pose proof (Inv_session fs inps) as Hm. fold m in Hm.
  destruct (inv_passed _ Hm Ht) as [Hp _].
  destruct (inv_working_text _ Hm) as [|Heq]; [done|].
  apply run_confirm_click; try done. by rewrite <- Heq.
Qed.

Lemma X22_witness :
  let m :=
    runs (new_session ∅) [scenario.speak scenario.calm scenario.recording] in
  let inp := scenario.click_analyze scenario.calm in
  session_state (run m inp) = set_analysis_started true (session_state m)
  ∧ service_calls (events_since m (run m inp)) = []
  ∧ exit_of m inp = Stop Rerun.
Proof.
  intros m inp.
  apply (X22_confirmation_only_sets_the_flag
           ∅ [scenario.speak scenario.calm scenario.recording] inp).
  - vm_compute. discriminate.
  - vm_compute. reflexivity.
  - reflexivity.
Defined.
